(** * Decision Coach: the session state machine of [src/pages/Index.tsx]

    The page is one React component, [DecisionCoach].  Its state is the
    fourteen [useState] cells; its behaviour is a handful of event handlers,
    two effects, and the callbacks they leave with [setTimeout] and
    [setInterval].  The development embeds them as functions on an explicit
    state record, with the pending callbacks, the clock and the position in
    the random stream made explicit in a [World]. *)

From Stdlib Require Import ZArith QArith Qround Ascii String HexString List Bool Lia.
From stdpp Require Import base gmap strings.

Import ListNotations.
Local Open Scope string_scope.
Local Open Scope Z_scope.

(** ** Mock data *)

(** [type Direction = 'UP' | 'DOWN'] *)
Inductive Direction : Set := UP | DOWN.

Definition Direction_eqb (a b : Direction) : bool :=
  match a, b with
  | UP, UP | DOWN, DOWN => true
  | _, _ => false
  end.

Definition Direction_toString (d : Direction) : string :=
  match d with UP => "UP" | DOWN => "DOWN" end.

Record AIAnalysis : Set := {
  direction : Direction;
  confidence : Z;
  signals : list string;
  coachNote : string
}.

Record CoachResponse : Set := {
  feedback : string;
  patternInsight : string;
  nextSuggestion : string
}.

#[global] Instance CoachResponse_eq_dec : EqDecision CoachResponse.
Proof. solve_decision. Defined.

Definition mockAIAnalysis : AIAnalysis := {|
  direction := UP;
  confidence := 78;
  signals :=
    [ "Order flow: bullish momentum detected";
      "RSI: neutral, no extreme readings";
      "Sentiment: slightly positive across channels";
      "Volume profile: above average accumulation" ];
  coachNote :=
    "This is analysis to inform your thinking, not a recommendation to follow."
|}.

Definition agree_correct : CoachResponse := {|
  feedback := "Your reasoning aligned with the analysis, and the outcome confirmed it. This is a good sign your pattern recognition is developing well. Stay curious about what signals felt most reliable to you.";
  patternInsight := "When you trust your read and it matches the data, you're building calibrated confidence.";
  nextSuggestion := "Next time, notice which specific signal gave you the most conviction."
|}.

Definition agree_incorrect : CoachResponse := {|
  feedback := "You aligned with the analysis, but the outcome went the other way. This happens—markets are probabilistic, not deterministic. The goal isn't to be right every time, but to learn from each decision.";
  patternInsight := "Incorrect outcomes when following data are normal. What matters is your process was sound.";
  nextSuggestion := "Reflect on whether any signal felt uncertain. Trust that discomfort next time."
|}.

Definition disagree_correct : CoachResponse := {|
  feedback := "You went against the analysis and were right. This shows independent thinking and perhaps pattern recognition the model missed. That's valuable—but also rare. Consider what you saw that the data didn't capture.";
  patternInsight := "Contrarian calls that work out often come from noticing something others overlooked.";
  nextSuggestion := "Document what gave you conviction to disagree. This insight could be your edge."
|}.

Definition disagree_incorrect : CoachResponse := {|
  feedback := "You disagreed with the analysis, and the outcome didn't favor your call. That's okay—learning to calibrate when to trust your instincts versus the data is part of the training. Each decision teaches you something.";
  patternInsight := "Disagreeing with data isn't wrong, but it requires strong conviction backed by observation.";
  nextSuggestion := "Ask yourself: what made you doubt the analysis? Was it pattern or impulse?"
|}.

(** [const coachResponses: Record<string, CoachResponse>]: an object used as
    a map from string keys. *)
Definition coachResponses : gmap string CoachResponse :=
  <["agree_correct" := agree_correct]>
  (<["agree_incorrect" := agree_incorrect]>
  (<["disagree_correct" := disagree_correct]>
  (<["disagree_incorrect" := disagree_incorrect]> ∅))).

(** ** Component state *)

Inductive TxStatus : Set := idle | pending | confirmed.

Record State : Set := {
  demoMode : bool;
  walletConnected : bool;
  walletAddress : string;
  userDirection : option Direction;
  userConfidence : Z;
  isLocked : bool;
  timeRemaining : Z;
  timerActive : bool;
  showTimeWarning : bool;
  outcome : Direction;
  showOutcome : bool;
  commitmentHash : string;
  txStatus : TxStatus;
  txHash : string
}.

(** The initial values passed to [useState]. *)
Definition initialState : State := {|
  demoMode := true;
  walletConnected := false;
  walletAddress := "";
  userDirection := None;
  userConfidence := 65;
  isLocked := false;
  timeRemaining := 30;
  timerActive := true;
  showTimeWarning := false;
  outcome := UP;
  showOutcome := false;
  commitmentHash := "";
  txStatus := idle;
  txHash := ""
|}.

(** What a JavaScript expression of type [T | null] evaluates to, keeping
    [undefined] (a missing key of an object) apart from [null]. *)
Inductive Nullable (A : Type) : Type :=
| null
| undefined
| value (a : A).
Arguments null {A}.
Arguments undefined {A}.
Arguments value {A} a.

(** [coachResponses[key]] *)
Definition index_coachResponses (key : string) : Nullable CoachResponse :=
  match coachResponses !! key with
  | Some r => value r
  | None => undefined
  end.

(** JavaScript truthiness of the two kinds of value the handlers test. *)
Definition truthy_direction (d : option Direction) : bool :=
  match d with Some _ => true | None => false end.

Definition truthy_string (s : string) : bool :=
  match s with EmptyString => false | String _ _ => true end.

(** [userDirection === d] for a nullable left-hand side. *)
Definition userDirection_is (u : option Direction) (d : Direction) : bool :=
  match u with
  | Some u' => Direction_eqb u' d
  | None => false
  end.

(** [getCoachFeedback] (a closure over the current render's state). *)
Definition getCoachFeedback (s : State) : Nullable CoachResponse :=
  if negb (showOutcome s) || negb (truthy_direction (userDirection s)) then null
  else
    let agreed := userDirection_is (userDirection s) (direction mockAIAnalysis) in
    let correct := userDirection_is (userDirection s) (outcome s) in
    let key := (if agreed then "agree" else "disagree") +:+ "_" +:+
               (if correct then "correct" else "incorrect") in
    index_coachResponses key.

(** ** The [useState] setters

    Each setter replaces one cell and leaves the thirteen others alone. *)

Definition setDemoMode (v : bool) (s : State) : State :=
  {| demoMode := v; walletConnected := walletConnected s;
     walletAddress := walletAddress s; userDirection := userDirection s;
     userConfidence := userConfidence s; isLocked := isLocked s;
     timeRemaining := timeRemaining s; timerActive := timerActive s;
     showTimeWarning := showTimeWarning s; outcome := outcome s;
     showOutcome := showOutcome s; commitmentHash := commitmentHash s;
     txStatus := txStatus s; txHash := txHash s |}.

Definition setWalletConnected (v : bool) (s : State) : State :=
  {| demoMode := demoMode s; walletConnected := v;
     walletAddress := walletAddress s; userDirection := userDirection s;
     userConfidence := userConfidence s; isLocked := isLocked s;
     timeRemaining := timeRemaining s; timerActive := timerActive s;
     showTimeWarning := showTimeWarning s; outcome := outcome s;
     showOutcome := showOutcome s; commitmentHash := commitmentHash s;
     txStatus := txStatus s; txHash := txHash s |}.

Definition setWalletAddress (v : string) (s : State) : State :=
  {| demoMode := demoMode s; walletConnected := walletConnected s;
     walletAddress := v; userDirection := userDirection s;
     userConfidence := userConfidence s; isLocked := isLocked s;
     timeRemaining := timeRemaining s; timerActive := timerActive s;
     showTimeWarning := showTimeWarning s; outcome := outcome s;
     showOutcome := showOutcome s; commitmentHash := commitmentHash s;
     txStatus := txStatus s; txHash := txHash s |}.

Definition setUserDirection (v : option Direction) (s : State) : State :=
  {| demoMode := demoMode s; walletConnected := walletConnected s;
     walletAddress := walletAddress s; userDirection := v;
     userConfidence := userConfidence s; isLocked := isLocked s;
     timeRemaining := timeRemaining s; timerActive := timerActive s;
     showTimeWarning := showTimeWarning s; outcome := outcome s;
     showOutcome := showOutcome s; commitmentHash := commitmentHash s;
     txStatus := txStatus s; txHash := txHash s |}.

Definition setUserConfidence (v : Z) (s : State) : State :=
  {| demoMode := demoMode s; walletConnected := walletConnected s;
     walletAddress := walletAddress s; userDirection := userDirection s;
     userConfidence := v; isLocked := isLocked s;
     timeRemaining := timeRemaining s; timerActive := timerActive s;
     showTimeWarning := showTimeWarning s; outcome := outcome s;
     showOutcome := showOutcome s; commitmentHash := commitmentHash s;
     txStatus := txStatus s; txHash := txHash s |}.

Definition setIsLocked (v : bool) (s : State) : State :=
  {| demoMode := demoMode s; walletConnected := walletConnected s;
     walletAddress := walletAddress s; userDirection := userDirection s;
     userConfidence := userConfidence s; isLocked := v;
     timeRemaining := timeRemaining s; timerActive := timerActive s;
     showTimeWarning := showTimeWarning s; outcome := outcome s;
     showOutcome := showOutcome s; commitmentHash := commitmentHash s;
     txStatus := txStatus s; txHash := txHash s |}.

Definition setTimeRemaining (v : Z) (s : State) : State :=
  {| demoMode := demoMode s; walletConnected := walletConnected s;
     walletAddress := walletAddress s; userDirection := userDirection s;
     userConfidence := userConfidence s; isLocked := isLocked s;
     timeRemaining := v; timerActive := timerActive s;
     showTimeWarning := showTimeWarning s; outcome := outcome s;
     showOutcome := showOutcome s; commitmentHash := commitmentHash s;
     txStatus := txStatus s; txHash := txHash s |}.

Definition setTimerActive (v : bool) (s : State) : State :=
  {| demoMode := demoMode s; walletConnected := walletConnected s;
     walletAddress := walletAddress s; userDirection := userDirection s;
     userConfidence := userConfidence s; isLocked := isLocked s;
     timeRemaining := timeRemaining s; timerActive := v;
     showTimeWarning := showTimeWarning s; outcome := outcome s;
     showOutcome := showOutcome s; commitmentHash := commitmentHash s;
     txStatus := txStatus s; txHash := txHash s |}.

Definition setShowTimeWarning (v : bool) (s : State) : State :=
  {| demoMode := demoMode s; walletConnected := walletConnected s;
     walletAddress := walletAddress s; userDirection := userDirection s;
     userConfidence := userConfidence s; isLocked := isLocked s;
     timeRemaining := timeRemaining s; timerActive := timerActive s;
     showTimeWarning := v; outcome := outcome s;
     showOutcome := showOutcome s; commitmentHash := commitmentHash s;
     txStatus := txStatus s; txHash := txHash s |}.

Definition setOutcome (v : Direction) (s : State) : State :=
  {| demoMode := demoMode s; walletConnected := walletConnected s;
     walletAddress := walletAddress s; userDirection := userDirection s;
     userConfidence := userConfidence s; isLocked := isLocked s;
     timeRemaining := timeRemaining s; timerActive := timerActive s;
     showTimeWarning := showTimeWarning s; outcome := v;
     showOutcome := showOutcome s; commitmentHash := commitmentHash s;
     txStatus := txStatus s; txHash := txHash s |}.

Definition setShowOutcome (v : bool) (s : State) : State :=
  {| demoMode := demoMode s; walletConnected := walletConnected s;
     walletAddress := walletAddress s; userDirection := userDirection s;
     userConfidence := userConfidence s; isLocked := isLocked s;
     timeRemaining := timeRemaining s; timerActive := timerActive s;
     showTimeWarning := showTimeWarning s; outcome := outcome s;
     showOutcome := v; commitmentHash := commitmentHash s;
     txStatus := txStatus s; txHash := txHash s |}.

Definition setCommitmentHash (v : string) (s : State) : State :=
  {| demoMode := demoMode s; walletConnected := walletConnected s;
     walletAddress := walletAddress s; userDirection := userDirection s;
     userConfidence := userConfidence s; isLocked := isLocked s;
     timeRemaining := timeRemaining s; timerActive := timerActive s;
     showTimeWarning := showTimeWarning s; outcome := outcome s;
     showOutcome := showOutcome s; commitmentHash := v;
     txStatus := txStatus s; txHash := txHash s |}.

Definition setTxStatus (v : TxStatus) (s : State) : State :=
  {| demoMode := demoMode s; walletConnected := walletConnected s;
     walletAddress := walletAddress s; userDirection := userDirection s;
     userConfidence := userConfidence s; isLocked := isLocked s;
     timeRemaining := timeRemaining s; timerActive := timerActive s;
     showTimeWarning := showTimeWarning s; outcome := outcome s;
     showOutcome := showOutcome s; commitmentHash := commitmentHash s;
     txStatus := v; txHash := txHash s |}.

Definition setTxHash (v : string) (s : State) : State :=
  {| demoMode := demoMode s; walletConnected := walletConnected s;
     walletAddress := walletAddress s; userDirection := userDirection s;
     userConfidence := userConfidence s; isLocked := isLocked s;
     timeRemaining := timeRemaining s; timerActive := timerActive s;
     showTimeWarning := showTimeWarning s; outcome := outcome s;
     showOutcome := showOutcome s; commitmentHash := commitmentHash s;
     txStatus := txStatus s; txHash := v |}.

(** ** The world around the component

    [setTimeout] callbacks wait in a queue until they are due; [Date.now()]
    reads a clock; [setInterval] of the timer effect is either live or
    cleared; [Math.random()] reads the next element of a stream. *)

(** The three single-shot continuations the component ever schedules. *)
Inductive Callback : Set :=
| RevealOutcome                   (* [() => setShowOutcome(true)] *)
| ResumeCommitProof (demo : bool) (* rest of [handleCommitProof] after its
                                     [await]; [demo] is the [demoMode] its
                                     closure captured *).

Record Timeout : Set := {
  due : Z;              (* earliest firing time, in ms *)
  callback : Callback
}.

Record World : Set := {
  ui : State;
  now : Z;                  (* [Date.now()], in ms *)
  timeouts : list Timeout;  (* pending, in registration order *)
  interval : bool;          (* the countdown's [setInterval] is live *)
  randomCalls : nat         (* how many times [Math.random()] was called *)
}.

Definition onUi (f : State -> State) (w : World) : World :=
  {| ui := f (ui w); now := now w; timeouts := timeouts w;
     interval := interval w; randomCalls := randomCalls w |}.

Definition setTimeout (cb : Callback) (ms : Z) (w : World) : World :=
  {| ui := ui w; now := now w;
     timeouts := (timeouts w ++ [ {| due := now w + ms; callback := cb |} ])%list;
     interval := interval w; randomCalls := randomCalls w |}.

Definition setInterval (w : World) : World :=
  {| ui := ui w; now := now w; timeouts := timeouts w;
     interval := true; randomCalls := randomCalls w |}.

Definition clearInterval (w : World) : World :=
  {| ui := ui w; now := now w; timeouts := timeouts w;
     interval := false; randomCalls := randomCalls w |}.

(** Time passes; nothing fires by itself. *)
Definition advance (ms : Z) (w : World) : World :=
  {| ui := ui w; now := now w + ms; timeouts := timeouts w;
     interval := interval w; randomCalls := randomCalls w |}.

Definition boot : World :=
  {| ui := initialState; now := 0; timeouts := [];
     interval := false; randomCalls := 0 |}.

(** ** Handlers *)

(** [handleLockIn] *)
Definition handleLockIn (w : World) : World :=
  if negb (truthy_direction (userDirection (ui w))) then w
  else
    let w := onUi (setIsLocked true) w in
    let w := onUi (setTimerActive false) w in
    setTimeout RevealOutcome 800 w.

(** [handleCommitProof], up to its [await]: both branches wait on a promise
    resolved by a 2000 ms timeout, and what follows runs when it fires. *)
Definition handleCommitProof (w : World) : World :=
  if negb (truthy_string (commitmentHash (ui w))) then w
  else
    let demo := demoMode (ui w) in
    let w := onUi (setTxStatus pending) w in
    setTimeout (ResumeCommitProof demo) 2000 w.

(** [handleConnectWallet] *)
Definition handleConnectWallet (s : State) : State :=
  let s' := if demoMode s then setDemoMode false s else s in
  let s' := setWalletConnected true s' in
  setWalletAddress "0x1234...5678" s'.

(** [UP] for [DOWN] and [DOWN] for [UP]. *)
Definition flip (d : Direction) : Direction :=
  match d with UP => DOWN | DOWN => UP end.

(** [handleRandomizeOutcome]: [setOutcome((prev) => prev === 'UP' ? 'DOWN' : 'UP')] *)
Definition handleRandomizeOutcome (s : State) : State :=
  setOutcome (if Direction_eqb (outcome s) UP then DOWN else UP) s.

(** [resetDemo] *)
Definition resetDemo (s : State) : State :=
  let s := setUserDirection None s in
  let s := setUserConfidence 65 s in
  let s := setIsLocked false s in
  let s := setTimeRemaining 30 s in
  let s := setTimerActive true s in
  let s := setShowTimeWarning false s in
  let s := setShowOutcome false s in
  let s := setCommitmentHash "" s in
  let s := setTxStatus idle s in
  setTxHash "" s.

(** The inline handlers of the JSX. *)

(** [() => setDemoMode(!demoMode)] *)
Definition onClickDemoMode (s : State) : State :=
  setDemoMode (negb (demoMode s)) s.

(** [() => !isLocked && setUserDirection(d)] *)
Definition onClickDirection (d : Direction) (s : State) : State :=
  if negb (isLocked s) then setUserDirection (Some d) s else s.

(** [(e) => !isLocked && setUserConfidence(Number(e.target.value))], for an
    event whose target holds the integer [v]. *)
Definition onChangeConfidence (v : Z) (s : State) : State :=
  if negb (isLocked s) then setUserConfidence v s else s.

(** The attributes of the confidence [<input type="range">]. *)
Definition confidence_min : Z := 0.
Definition confidence_max : Z := 100.

(** The value such an input holds when its thumb is taken to [v]: the
    browser keeps it between [min] and [max]. *)
Definition rangeInputValue (v : Z) : Z :=
  if v <? confidence_min then confidence_min
  else if confidence_max <? v then confidence_max
  else v.

(** The slider taken to [v]: nothing happens while the input is [disabled],
    that is while the decision is locked; otherwise [onChange] is called
    with the value the input holds. *)
Definition slideConfidence (v : Z) (s : State) : State :=
  if isLocked s then s else onChangeConfidence (rangeInputValue v) s.

(** ** The countdown *)

(** Body of the timer effect. *)
Definition timerEffect (w : World) : World :=
  let s := ui w in
  if negb (timerActive s) || isLocked s then w
  else if timeRemaining s <=? 0 then
    if truthy_direction (userDirection s) then handleLockIn w
    else
      let w := onUi (setShowTimeWarning true) w in
      onUi (setTimerActive false) w
  else setInterval w.

(** Its cleanup, [() => clearInterval(timer)]. *)
Definition timerCleanup (w : World) : World := clearInterval w.

(** The interval's callback, [setTimeRemaining((t) => t - 1)]. *)
Definition tick (s : State) : State :=
  setTimeRemaining (timeRemaining s - 1) s.

(** One second of a live countdown: the interval fires, the changed
    [timeRemaining] makes React clean the effect up and run it again. *)
Definition countdown (w : World) : World :=
  if interval w then timerEffect (timerCleanup (onUi tick (advance 1000 w)))
  else w.

(** ** JavaScript library functions the component calls *)

(** [Math.floor] on the result of an exact computation. *)
Definition Math_floor (q : Q) : Z := Qfloor q.

(** [n.toString(16)] for an integral number [n]. *)
Definition Number_toString16 (n : Z) : string :=
  match n with
  | Z0 => "0"
  | Zpos p => HexString.Raw.of_pos p ""
  | Zneg p => "-" +:+ HexString.Raw.of_pos p ""
  end.

(** [Array.from({ length: len }, f)]: [f] is called for the indices
    [0 .. len-1] in order. *)
Definition Array_from {A : Type} (len : nat) (f : nat -> A) : list A :=
  List.map f (seq 0 len).

(** [parts.join('')] *)
Definition join (parts : list string) : string := String.concat "" parts.

(** ['0'.repeat(n)] *)
Fixpoint String_repeat (s : string) (n : nat) : string :=
  match n with
  | O => ""
  | S n' => s +:+ String_repeat s n'
  end.

(** A call either returns or throws. *)
Inductive Completion (A : Type) : Type :=
| Normal (a : A)
| Throw.
Arguments Normal {A} a.
Arguments Throw {A}.

(** Sequencing: a statement that throws skips the ones after it. *)
#[global] Instance Completion_bind : MBind Completion :=
  fun A B k c =>
    match c with
    | Normal a => k a
    | Throw => Throw
    end.

(** [try { return c } catch { return fallback }] *)
Definition try_catch {A : Type} (c : Completion A) (fallback : A) : A :=
  match c with
  | Normal a => a
  | Throw => fallback
  end.

(** [BigInt(n)] for an integral number [n]; it throws on the others only. *)
Definition BigInt (n : Z) : Completion Z := Normal n.

(** The argument types and values [encodePacked] is called with. *)
Inductive AbiType : Set := abi_string | abi_uint256.

Inductive AbiValue : Set :=
| abi_str (s : string)
| abi_big (n : Z).

(** ** What the rendered page lets the user do

    A control invokes its handler only while it is rendered and not
    [disabled]. *)

Inductive Event : Set :=
| ClickDemoMode
| ClickConnectWallet
| ClickDirection (d : Direction)
| ChangeConfidence (v : Z)
| ClickLockIn
| ClickReset
| ClickToggleOutcome
| ClickCommit.

Definition TxStatus_eqb (a b : TxStatus) : bool :=
  match a, b with
  | idle, idle | pending, pending | confirmed, confirmed => true
  | _, _ => false
  end.

(** The [disabled] attribute of the commit button. *)
Definition commitDisabled (s : State) : bool :=
  negb (truthy_string (commitmentHash s))
  || TxStatus_eqb (txStatus s) pending
  || TxStatus_eqb (txStatus s) confirmed
  || (negb (demoMode s) && negb (walletConnected s)).

Definition enabled (e : Event) (s : State) : bool :=
  match e with
  | ClickDemoMode => true
  | ClickConnectWallet => true
  | ClickDirection _ => negb (isLocked s)
  | ChangeConfidence v =>
      negb (isLocked s) && (confidence_min <=? v) && (v <=? confidence_max)
  | ClickLockIn => negb (isLocked s) && truthy_direction (userDirection s)
  | ClickReset => isLocked s
  | ClickToggleOutcome => showOutcome s && demoMode s
  | ClickCommit => negb (commitDisabled s)
  end.

Definition handler (e : Event) (w : World) : World :=
  match e with
  | ClickDemoMode => onUi onClickDemoMode w
  | ClickConnectWallet => onUi handleConnectWallet w
  | ClickDirection d => onUi (onClickDirection d) w
  | ChangeConfidence v => onUi (onChangeConfidence v) w
  | ClickLockIn => handleLockIn w
  | ClickReset => onUi resetDemo w
  | ClickToggleOutcome => onUi handleRandomizeOutcome w
  | ClickCommit => handleCommitProof w
  end.

Definition dispatch (e : Event) (w : World) : World :=
  if enabled e (ui w) then handler e w else w.

Section Component.

(** The [k]-th result of [Math.random()] since the page was loaded. *)
Variable Math_random : nat -> Q.

(** [encodePacked] and [keccak256] of the [viem] package: each returns a
    hex string or throws. *)
Variable encodePacked : list AbiType -> list AbiValue -> Completion string.
Variable keccak256 : string -> Completion string.

(** *** The commitment *)

(** [computeCommitment], at clock reading [t]. *)
Definition computeCommitment (s : State) (t : Z) : string :=
  let address :=
    if demoMode s then "0xDemoUser"
    else if truthy_string (walletAddress s) then walletAddress s else "0x0" in
  let timestamp := t / 1000 in
  try_catch
    (analysisConfidence ← BigInt (confidence mockAIAnalysis);
     confidence' ← BigInt (userConfidence s);
     timestamp' ← BigInt timestamp;
     packed ← encodePacked
       [abi_string; abi_string; abi_uint256; abi_string; abi_uint256;
        abi_string; abi_uint256]
       [abi_str address;
        abi_str (Direction_toString (direction mockAIAnalysis));
        abi_big analysisConfidence;
        abi_str (match userDirection s with
                 | Some d => Direction_toString d
                 | None => "NONE"
                 end);
        abi_big confidence';
        abi_str (Direction_toString (outcome s));
        abi_big timestamp'];
     keccak256 packed)
    ("0x" +:+ String_repeat "0" 64).

(** Body of the commitment effect. *)
Definition commitmentEffect (w : World) : World :=
  if isLocked (ui w) && showOutcome (ui w)
  then onUi (setCommitmentHash (computeCommitment (ui w) (now w))) w
  else w.

(** *** Firing a scheduled callback *)

(** The transaction hash made up from the [k]-th random number on. *)
Definition fakeTxHash (k : nat) : string :=
  "0x" +:+
  join (Array_from 64 (fun i =>
    Number_toString16
      (Math_floor (Math_random (k + i)%nat * inject_Z 16)))).

Definition drawn (n : nat) (w : World) : World :=
  {| ui := ui w; now := now w; timeouts := timeouts w;
     interval := interval w; randomCalls := (randomCalls w + n)%nat |}.

Definition fire (cb : Callback) (w : World) : World :=
  match cb with
  | RevealOutcome => onUi (setShowOutcome true) w
  | ResumeCommitProof true =>
      let hash := fakeTxHash (randomCalls w) in
      let w := drawn 64 w in
      let w := onUi (setTxHash hash) w in
      onUi (setTxStatus confirmed) w
  | ResumeCommitProof false =>
      (* the awaited promise cannot reject: the [catch] is never entered *)
      onUi (setTxStatus confirmed) w
  end.

Definition dequeue (i : nat) (w : World) : World :=
  {| ui := ui w; now := now w; timeouts := delete i (timeouts w);
     interval := interval w; randomCalls := randomCalls w |}.

(** The [i]-th pending timeout fires, which it may once it is due. *)
Definition runTimeout (i : nat) (w : World) : option World :=
  match timeouts w !! i with
  | Some t =>
      if due t <=? now w then Some (fire (callback t) (dequeue i w))
      else None
  | None => None
  end.

(** *** Running the page

    What can happen next: the user operates a control, time passes, a due
    timeout fires, React runs one of the two effects, or a second of live
    countdown goes by. *)
Inductive Action : Set :=
| User (e : Event)
| Wait (ms : Z)
| Fire (i : nat)
| TimerEffect
| CommitmentEffect
| Countdown.

Definition perform (a : Action) (w : World) : option World :=
  match a with
  | User e => Some (dispatch e w)
  | Wait ms => if 0 <=? ms then Some (advance ms w) else None
  | Fire i => runTimeout i w
  | TimerEffect => Some (timerEffect (timerCleanup w))
  | CommitmentEffect => Some (commitmentEffect w)
  | Countdown => if interval w then Some (countdown w) else None
  end.

Fixpoint run (script : list Action) (w : World) : option World :=
  match script with
  | [] => Some w
  | a :: script' =>
      match perform a w with
      | Some w' => run script' w'
      | None => None
      end
  end.

End Component.

(** ** The feedback resolver *)

(** The resolver as the specification words it: nothing until the outcome is
    revealed and a direction chosen, then the payload keyed by agreement with
    the reference and by correctness against the outcome. *)
Definition payload (agree correct : bool) : CoachResponse :=
  match agree, correct with
  | true, true => agree_correct
  | true, false => agree_incorrect
  | false, true => disagree_correct
  | false, false => disagree_incorrect
  end.

Definition resolveFeedback (revealed : bool) (user : option Direction)
    (reference outcome' : Direction) : Nullable CoachResponse :=
  match revealed, user with
  | true, Some d =>
      value (payload (Direction_eqb d reference) (Direction_eqb d outcome'))
  | _, _ => null
  end.

(** ** Counting reveals *)

(** How many times the outcome goes from hidden to shown along a sequence
    of states. *)
Fixpoint reveals (trace : list State) : nat :=
  match trace with
  | s :: (s' :: _) as rest =>
      ((if negb (showOutcome s) && showOutcome s' then 1 else 0)
       + reveals rest)%nat
  | _ => 0%nat
  end.

(** ** Shape of a digest *)

Definition isHexDigit (a : ascii) : bool :=
  existsb (Ascii.eqb a) (list_ascii_of_string "0123456789abcdef").

(** A string of one hexadecimal digit. *)
Definition isHexChar (s : string) : Prop :=
  exists c, s = String c "" /\ isHexDigit c = true.

(** ['0x'] followed by exactly 64 hexadecimal digits. *)
Definition isHexDigest (s : string) : bool :=
  match s with
  | String a (String b digits) =>
      Ascii.eqb a "0" && Ascii.eqb b "x"
      && (String.length digits =? 64)%nat
      && forallb isHexDigit (list_ascii_of_string digits)
  | _ => false
  end.

(** The value [computeCommitment] returns from its [catch]. *)
Definition zeroDigest : string := "0x" +:+ String_repeat "0" 64.

(** The two arrays [computeCommitment] hands to [encodePacked]. *)
Definition commitmentTypes : list AbiType :=
  [abi_string; abi_string; abi_uint256; abi_string; abi_uint256;
   abi_string; abi_uint256].

Definition commitmentValues (s : State) (t : Z) : list AbiValue :=
  [abi_str (if demoMode s then "0xDemoUser"
            else if truthy_string (walletAddress s) then walletAddress s
            else "0x0");
   abi_str (Direction_toString (direction mockAIAnalysis));
   abi_big (confidence mockAIAnalysis);
   abi_str (match userDirection s with
            | Some d => Direction_toString d
            | None => "NONE"
            end);
   abi_big (userConfidence s);
   abi_str (Direction_toString (outcome s));
   abi_big (t / 1000)].

(** ** A runnable [viem]

    [encodePacked] and [keccak256] live in the [viem] package, not in this
    repository, and the component is stated over any pair of functions of
    their types.  To run it on concrete inputs this module gives the pair
    the package documents: Solidity's packed encoding for the two types the
    component uses, and Keccak-256 (rate 1088, capacity 512, padding
    [0x01 .. 0x80]) over the bytes of a hex string. *)
Module Viem.

Definition mask64 : Z := 18446744073709551615.

Definition rotl64 (x n : Z) : Z :=
  Z.lor (Z.land (Z.shiftl x n) mask64) (Z.shiftr x (64 - n)).

Definition lane (A : list Z) (i : nat) : Z := nth i A 0.

Definition rotationOffsets : list (list Z) :=
  [ [0; 36; 3; 41; 18];
    [1; 44; 10; 45; 2];
    [62; 6; 43; 15; 61];
    [28; 55; 25; 21; 56];
    [27; 20; 39; 8; 14] ].

Definition rotation (x y : nat) : Z := nth y (nth x rotationOffsets []) 0.

Definition roundConstants : list Z :=
  [ 0x0000000000000001; 0x0000000000008082; 0x800000000000808A;
    0x8000000080008000; 0x000000000000808B; 0x0000000080000001;
    0x8000000080008081; 0x8000000000008009; 0x000000000000008A;
    0x0000000000000088; 0x0000000080008009; 0x000000008000000A;
    0x000000008000808B; 0x800000000000008B; 0x8000000000008089;
    0x8000000000008003; 0x8000000000008002; 0x8000000000000080;
    0x000000000000800A; 0x800000008000000A; 0x8000000080008081;
    0x8000000000008080; 0x0000000080000001; 0x8000000080008008 ].

Definition column (A : list Z) (x : nat) : Z :=
  Z.lxor (lane A x)
    (Z.lxor (lane A (x + 5))
      (Z.lxor (lane A (x + 10))
        (Z.lxor (lane A (x + 15)) (lane A (x + 20))))).

Definition theta (A : list Z) : list Z :=
  let D x :=
    Z.lxor (column A ((x + 4) mod 5)) (rotl64 (column A ((x + 1) mod 5)) 1) in
  List.map (fun i => Z.lxor (lane A i) (D (i mod 5)%nat)) (seq 0 25).

(** Lane [(X, Y)] of the result comes from lane [(x, X)] with
    [x = X + 3Y mod 5], the inverse of [(x, y) -> (y, 2x + 3y)]. *)
Definition rhoPi (A : list Z) : list Z :=
  List.map (fun j =>
    let X := (j mod 5)%nat in
    let Y := (j / 5)%nat in
    let x := ((X + 3 * Y) mod 5)%nat in
    rotl64 (lane A (x + 5 * X)) (rotation x X)) (seq 0 25).

Definition chi (B : list Z) : list Z :=
  List.map (fun i =>
    let x := (i mod 5)%nat in
    let y := (i / 5)%nat in
    Z.lxor (lane B i)
      (Z.land (Z.lxor (lane B ((x + 1) mod 5 + 5 * y)) mask64)
              (lane B ((x + 2) mod 5 + 5 * y)))) (seq 0 25).

Definition iota (rc : Z) (A : list Z) : list Z :=
  match A with
  | a :: rest => Z.lxor a rc :: rest
  | [] => []
  end.

Definition keccak_f (A : list Z) : list Z :=
  fold_left (fun A rc => iota rc (chi (rhoPi (theta A)))) roundConstants A.

(** Bytes are integers in [0, 255]. *)
Definition pad (m : list Z) : list Z :=
  let q := (136 - length m mod 136)%nat in
  match q with
  | 1%nat => (m ++ [0x81])%list
  | _ => (m ++ [0x01] ++ repeat 0 (q - 2) ++ [0x80])%list
  end.

Definition laneOfBytes (bs : list Z) : Z :=
  fold_right (fun b acc => b + 256 * acc) 0 bs.

Fixpoint lanesOf (n : nat) (bs : list Z) : list Z :=
  match n with
  | O => []
  | S n' => laneOfBytes (firstn 8 bs) :: lanesOf n' (skipn 8 bs)
  end.

Definition xorLanes (A L : list Z) : list Z :=
  List.map (fun i => Z.lxor (lane A i) (nth i L 0)) (seq 0 25).

Fixpoint absorb (blocks : nat) (bs : list Z) (A : list Z) : list Z :=
  match blocks with
  | O => A
  | S k =>
      absorb k (skipn 136 bs)
        (keccak_f (xorLanes A (lanesOf 17 (firstn 136 bs))))
  end.

Definition bytesOfLane (l : Z) : list Z :=
  List.map (fun k => Z.land (Z.shiftr l (8 * k)) 255) [0; 1; 2; 3; 4; 5; 6; 7].

Definition squeeze (A : list Z) : list Z :=
  flat_map (fun i => bytesOfLane (lane A i)) (seq 0 4).

Definition keccak_256 (m : list Z) : list Z :=
  let p := pad m in
  squeeze (absorb (length p / 136) p (repeat 0 25)).

(** Hex strings. *)
Definition hexDigit (n : Z) : ascii :=
  match n with
  | 0 => "0" | 1 => "1" | 2 => "2" | 3 => "3" | 4 => "4" | 5 => "5"
  | 6 => "6" | 7 => "7" | 8 => "8" | 9 => "9" | 10 => "a" | 11 => "b"
  | 12 => "c" | 13 => "d" | 14 => "e" | _ => "f"
  end%char.

Fixpoint hexOfBytes (bs : list Z) : string :=
  match bs with
  | [] => ""
  | b :: rest =>
      String (hexDigit (Z.shiftr b 4)) (String (hexDigit (Z.land b 15))
        (hexOfBytes rest))
  end.

Definition bytesToHex (bs : list Z) : string := "0x" +:+ hexOfBytes bs.

Definition digitOfHex (a : ascii) : option Z :=
  match HexString.ascii_to_digit a with
  | Some n => Some (Z.of_N n)
  | None => None
  end.

Fixpoint bytesOfHex (s : string) : option (list Z) :=
  match s with
  | "" => Some []
  | String hi (String lo rest) =>
      match digitOfHex hi, digitOfHex lo, bytesOfHex rest with
      | Some h, Some l, Some bs => Some (16 * h + l :: bs)
      | _, _, _ => None
      end
  | String _ "" => None
  end.

(** An odd number of digits is read with a leading zero. *)
Definition hexToBytes (s : string) : option (list Z) :=
  match s with
  | String "0" (String "x" digits) =>
      if Nat.even (String.length digits) then bytesOfHex digits
      else bytesOfHex (String "0" digits)
  | _ => None
  end.

Definition stringToBytes (s : string) : list Z :=
  List.map (fun a => Z.of_N (N_of_ascii a)) (list_ascii_of_string s).

(** Big-endian, [size] bytes. *)
Fixpoint numberToBytes (size : nat) (n : Z) : list Z :=
  match size with
  | O => []
  | S k => (numberToBytes k (n / 256) ++ [n mod 256])%list
  end.

Definition encode (ty : AbiType) (v : AbiValue) : Completion (list Z) :=
  match ty, v with
  | abi_string, abi_str s => Normal (stringToBytes s)
  | abi_uint256, abi_big n =>
      if (0 <=? n) && (n <? 2 ^ 256) then Normal (numberToBytes 32 n)
      else Throw  (* IntegerOutOfRangeError *)
  | _, _ => Throw
  end.

Fixpoint encodeAll (types : list AbiType) (values : list AbiValue)
  : Completion (list Z) :=
  match types, values with
  | [], [] => Normal []
  | ty :: types', v :: values' =>
      bs ← encode ty v;
      rest ← encodeAll types' values';
      Normal (bs ++ rest)%list
  | _, _ => Throw  (* AbiEncodingLengthMismatchError *)
  end.

Definition encodePacked (types : list AbiType) (values : list AbiValue)
  : Completion string :=
  bs ← encodeAll types values;
  Normal (bytesToHex bs).

Definition keccak256 (hex : string) : Completion string :=
  match hexToBytes hex with
  | Some bs => Normal (bytesToHex (keccak_256 bs))
  | None => Throw
  end.

End Viem.

(** ** A scripted session

    The page run with the [viem] above and a fixed stream of random
    numbers. *)
Module Demo.

Definition random (k : nat) : Q := Z.of_nat ((7 * k + 3) mod 16) # 16.

Definition play : list Action -> World -> option World :=
  run random Viem.encodePacked Viem.keccak256.

(** The user picks [UP] after five seconds and locks in. *)
Definition lockScript : list Action :=
  [TimerEffect; Countdown; Countdown; Countdown; Countdown; Countdown;
   User (ClickDirection UP); TimerEffect; User (ClickLockIn); TimerEffect;
   CommitmentEffect].

(** The outcome is revealed and the commitment computed. *)
Definition revealScript : list Action :=
  [Wait 800; Fire 0%nat; CommitmentEffect].

(** The proof is committed in demo mode. *)
Definition commitScript : list Action :=
  [User ClickCommit; Wait 2000; Fire 0%nat].

Definition orBoot (w : option World) : World :=
  match w with Some w' => w' | None => boot end.

(** Nobody touches the page for twenty-nine seconds. *)
Definition idleScript : list Action :=
  TimerEffect :: repeat Countdown 29.

Definition lastSecond : World :=
  Eval vm_compute in orBoot (play idleScript boot).

(** The thirtieth tick has been rendered; the timer effect is about to
    run. *)
Definition expiring : World :=
  Eval vm_compute in timerCleanup (onUi tick (advance 1000 lastSecond)).

(** The same with [DOWN] picked at the last moment. *)
Definition expiringChosen : World :=
  Eval vm_compute in onUi (onClickDirection DOWN) expiring.

Definition locked : World := Eval vm_compute in orBoot (play lockScript boot).
Definition revealed : World := Eval vm_compute in orBoot (play revealScript locked).
Definition committed : World := Eval vm_compute in orBoot (play commitScript revealed).

End Demo.

(** Further scripted sessions. *)
Module Tour.

(** A new session after the first was locked, with the slider pushed to
    its end. *)
Definition restartScript : list Action :=
  (Demo.lockScript ++
   [User ClickReset; TimerEffect; User (ChangeConfidence 100)])%list.

Definition restarted : World :=
  Eval vm_compute in Demo.orBoot (Demo.play restartScript boot).

(** The whole demo session. *)
Definition fullScript : list Action :=
  (Demo.lockScript ++ Demo.revealScript ++ Demo.commitScript)%list.

(** The commit button has just been pressed. *)
Definition submittedScript : list Action :=
  (Demo.lockScript ++ Demo.revealScript ++ [User ClickCommit])%list.

Definition submitted : World :=
  Eval vm_compute in Demo.orBoot (Demo.play submittedScript boot).

End Tour.

(** ** What the render derives from the state *)

(** [const isCorrect = userDirection === outcome] *)
Definition isCorrect (s : State) : bool :=
  userDirection_is (userDirection s) (outcome s).

(** [showTimeWarning && !userDirection]: the line "Time's up" is on the
    page. *)
Definition timeWarningShown (s : State) : bool :=
  showTimeWarning s && negb (truthy_direction (userDirection s)).

(** [txHash && ...]: the transaction link is on the page. *)
Definition transactionShown (s : State) : bool := truthy_string (txHash s).

(** A queued continuation of [handleCommitProof]. *)
Definition isResume (t : Timeout) : bool :=
  match callback t with
  | ResumeCommitProof _ => true
  | RevealOutcome => false
  end.

(** ** Rendering after every step

    The timer effect lists [timeRemaining], [timerActive], [isLocked] and
    [userDirection] as dependencies: React cleans it up and runs it again
    after every render in which one of them changed, before the next event
    or callback is handled. *)
Definition render (w : World) : World := timerEffect (timerCleanup w).

(** The page once mounted. *)
Definition mounted : World := render boot.

Section Session.

Variable Math_random : nat -> Q.
Variable encodePacked : list AbiType -> list AbiValue -> Completion string.
Variable keccak256 : string -> Completion string.

Definition react (a : Action) (w : World) : option World :=
  match perform Math_random encodePacked keccak256 a w with
  | Some w' => Some (render w')
  | None => None
  end.

Fixpoint session (script : list Action) (w : World) : option World :=
  match script with
  | [] => Some w
  | a :: script' =>
      match react a w with
      | Some w' => session script' w'
      | None => None
      end
  end.

End Session.

(** A session that is reset 300 ms after locking: the reveal of the first
    decision fires half a second into the next session, and the user then
    picks [DOWN]. *)
Module Late.

Definition script : list Action :=
  [User (ClickDirection UP); User ClickLockIn; Wait 300; User ClickReset;
   Wait 500; Fire 0%nat; User (ClickDirection DOWN)].

Definition world : World :=
  Eval vm_compute in
    Demo.orBoot
      (session Demo.random Viem.encodePacked Viem.keccak256 script mounted).

End Late.

(** ** The state changes of the page, one at a time

    Every way the fourteen cells change: a control operated while it is
    rendered and enabled, a branch of the timer effect, the commitment
    effect, a tick of the interval, a callback that fires. *)
Inductive Step (s : State) : State -> Prop :=
| step_demoMode : Step s (onClickDemoMode s)
| step_connect : Step s (handleConnectWallet s)
| step_direction (d : Direction) :
    isLocked s = false -> Step s (setUserDirection (Some d) s)
| step_confidence (v : Z) :
    isLocked s = false -> confidence_min <= v <= confidence_max ->
    Step s (setUserConfidence v s)
| step_lock :
    isLocked s = false -> truthy_direction (userDirection s) = true ->
    Step s (setTimerActive false (setIsLocked true s))
| step_expire :
    timerActive s = true -> isLocked s = false -> timeRemaining s <= 0 ->
    userDirection s = None ->
    Step s (setTimerActive false (setShowTimeWarning true s))
| step_reset : isLocked s = true -> Step s (resetDemo s)
| step_toggle :
    showOutcome s = true -> demoMode s = true ->
    Step s (handleRandomizeOutcome s)
| step_submit : commitDisabled s = false -> Step s (setTxStatus pending s)
| step_commitment (hash : string) :
    isLocked s = true -> showOutcome s = true ->
    Step s (setCommitmentHash hash s)
| step_tick : Step s (tick s)
| step_reveal : Step s (setShowOutcome true s)
| step_confirm_demo (hash : string) :
    Step s (setTxStatus confirmed (setTxHash hash s))
| step_confirm_live : Step s (setTxStatus confirmed s).

(** What the cells promise one another. *)
Definition consistent (s : State) : Prop :=
  0 <= userConfidence s <= 100
  /\ (isLocked s = true ->
      userDirection s <> None /\ timerActive s = false)
  /\ (commitmentHash s <> "" -> isLocked s = true /\ showOutcome s = true)
  /\ (txHash s <> "" -> txStatus s = confirmed)
  /\ (showTimeWarning s = true -> timerActive s = false).

(** * Properties *)

(** ** The feedback resolver *)

Lemma direction_mockAIAnalysis : direction mockAIAnalysis = UP.
Proof. reflexivity. Qed.

Example index_agree_correct :
  index_coachResponses "agree_correct" = value agree_correct.
Proof. vm_compute. reflexivity. Qed.

Example index_agree_incorrect :
  index_coachResponses "agree_incorrect" = value agree_incorrect.
Proof. vm_compute. reflexivity. Qed.

Example index_disagree_correct :
  index_coachResponses "disagree_correct" = value disagree_correct.
Proof. vm_compute. reflexivity. Qed.

Example index_disagree_incorrect :
  index_coachResponses "disagree_incorrect" = value disagree_incorrect.
Proof. vm_compute. reflexivity. Qed.

(** A key outside the table reads as [undefined]; the resolver never builds
    one. *)
Example index_other : index_coachResponses "agree" = undefined.
Proof. vm_compute. reflexivity. Qed.

Lemma getCoachFeedback_resolve (s : State) :
  getCoachFeedback s =
  resolveFeedback (showOutcome s) (userDirection s)
                  (direction mockAIAnalysis) (outcome s).
Proof.
  unfold getCoachFeedback, resolveFeedback.
  destruct (showOutcome s); [|reflexivity].
  destruct (userDirection s) as [d|]; [|reflexivity].
  cbn [negb orb truthy_direction userDirection_is].
  destruct (Direction_eqb d (direction mockAIAnalysis)),
           (Direction_eqb d (outcome s)); cbn [payload].
  - apply index_agree_correct.
  - apply index_agree_incorrect.
  - apply index_disagree_correct.
  - apply index_disagree_incorrect.
Qed.

Lemma payloads_distinct :
  NoDup [agree_correct; agree_incorrect; disagree_correct; disagree_incorrect].
Proof.
  apply (bool_decide_unpack _). vm_compute. exact I.
Qed.

(** C1. The feedback resolver depends on the state only through
    (revealed, user direction, reference direction, outcome direction): it
    is [null] whenever the outcome is not revealed or no direction was
    chosen, and otherwise the one of four pairwise distinct payloads keyed
    by (user = reference, user = outcome).  With the reference [UP]:
    user [UP] and outcome [UP] give [agree_correct], user [DOWN] and
    outcome [DOWN] give [disagree_correct], user [UP] and outcome [DOWN]
    give [agree_incorrect]. *)
Theorem getCoachFeedback_spec :
  (forall s,
     getCoachFeedback s =
     resolveFeedback (showOutcome s) (userDirection s)
                     (direction mockAIAnalysis) (outcome s))
  /\ (forall s, getCoachFeedback (setShowOutcome false s) = null)
  /\ (forall s, getCoachFeedback (setUserDirection None s) = null)
  /\ (forall s d,
        getCoachFeedback (setShowOutcome true (setUserDirection (Some d) s)) =
        value (payload (Direction_eqb d (direction mockAIAnalysis))
                       (Direction_eqb d (outcome s))))
  /\ (payload true true = agree_correct
      /\ payload true false = agree_incorrect
      /\ payload false true = disagree_correct
      /\ payload false false = disagree_incorrect)
  /\ NoDup [agree_correct; agree_incorrect; disagree_correct; disagree_incorrect]
  /\ direction mockAIAnalysis = UP
  /\ (forall s,
        getCoachFeedback
          (setShowOutcome true (setOutcome UP (setUserDirection (Some UP) s)))
        = value agree_correct)
  /\ (forall s,
        getCoachFeedback
          (setShowOutcome true (setOutcome DOWN (setUserDirection (Some DOWN) s)))
        = value disagree_correct)
  /\ (forall s,
        getCoachFeedback
          (setShowOutcome true (setOutcome DOWN (setUserDirection (Some UP) s)))
        = value agree_incorrect).
Proof.
  split; [exact getCoachFeedback_resolve|].
  split; [intros s; rewrite getCoachFeedback_resolve; reflexivity|].
  split; [intros s; rewrite getCoachFeedback_resolve; simpl;
          destruct (showOutcome s); reflexivity|].
  split; [intros s d; rewrite getCoachFeedback_resolve; reflexivity|].
  split; [cbn [payload]; auto|].
  split; [exact payloads_distinct|].
  split; [reflexivity|].
  split; [|split]; intros s; rewrite getCoachFeedback_resolve; reflexivity.
Qed.

(** ** Reset *)

(** C4. From any state, [resetDemo] leaves the direction unset, the
    confidence at 65, the lock open, 30 seconds on a running timer, the time
    warning cleared, the outcome hidden, the commitment empty, the
    submission idle and the transaction identifier empty. *)
Theorem resetDemo_restores (s : State) :
  userDirection (resetDemo s) = None
  /\ userConfidence (resetDemo s) = 65
  /\ isLocked (resetDemo s) = false
  /\ timeRemaining (resetDemo s) = 30
  /\ timerActive (resetDemo s) = true
  /\ showTimeWarning (resetDemo s) = false
  /\ showOutcome (resetDemo s) = false
  /\ commitmentHash (resetDemo s) = ""
  /\ txStatus (resetDemo s) = idle
  /\ txHash (resetDemo s) = "".
Proof. repeat split. Qed.

(** The restored timer is running: the timer effect of the render that
    follows arms the interval again. *)
Lemma resetDemo_timer_runs (w : World) :
  timerEffect (timerCleanup (onUi resetDemo w)) =
  setInterval (onUi resetDemo w).
Proof. vm_compute. reflexivity. Qed.

(** C10. [resetDemo] does not touch the outcome direction, the demo-mode
    flag or the wallet connection (flag and address). *)
Theorem resetDemo_frame (s : State) :
  outcome (resetDemo s) = outcome s
  /\ demoMode (resetDemo s) = demoMode s
  /\ walletConnected (resetDemo s) = walletConnected s
  /\ walletAddress (resetDemo s) = walletAddress s.
Proof. repeat split. Qed.

(** Together: a reset state is the initial one up to those four cells. *)
Lemma resetDemo_initial (s : State) :
  resetDemo s =
  setOutcome (outcome s)
    (setDemoMode (demoMode s)
      (setWalletConnected (walletConnected s)
        (setWalletAddress (walletAddress s) initialState))).
Proof. vm_compute. reflexivity. Qed.

(** Pending callbacks survive a reset. *)
Lemma resetDemo_keeps_timeouts (w : World) :
  timeouts (onUi resetDemo w) = timeouts w.
Proof. reflexivity. Qed.

(** ** Toggling the outcome *)

Lemma handleRandomizeOutcome_flip (s : State) :
  handleRandomizeOutcome s = setOutcome (flip (outcome s)) s.
Proof. unfold handleRandomizeOutcome. destruct (outcome s); reflexivity. Qed.

Lemma handleRandomizeOutcome_involutive (s : State) :
  handleRandomizeOutcome (handleRandomizeOutcome s) = s.
Proof.
  rewrite !handleRandomizeOutcome_flip.
  destruct s as [? ? ? ? ? ? ? ? ? o ? ? ? ?]; destruct o; reflexivity.
Qed.

Lemma handleRandomizeOutcome_iter (n : nat) (s : State) :
  Nat.iter n handleRandomizeOutcome s =
  if Nat.even n then s else handleRandomizeOutcome s.
Proof.
  induction n as [n IH] using (well_founded_induction lt_wf).
  destruct n as [|[|n]]; try reflexivity.
  change (Nat.iter (S (S n)) handleRandomizeOutcome s)
    with (handleRandomizeOutcome
            (handleRandomizeOutcome (Nat.iter n handleRandomizeOutcome s))).
  rewrite handleRandomizeOutcome_involutive.
  change (Nat.even (S (S n))) with (Nat.even n).
  apply IH. lia.
Qed.
(** C9. [handleRandomizeOutcome] turns [UP] into [DOWN] and [DOWN] into
    [UP], touches no other cell, has no guard (so it may be applied any
    number of times, in any state), and applied twice gives the state
    back. *)
Theorem handleRandomizeOutcome_spec (s : State) :
  outcome (handleRandomizeOutcome s) = flip (outcome s)
  /\ outcome (handleRandomizeOutcome (setOutcome UP s)) = DOWN
  /\ outcome (handleRandomizeOutcome (setOutcome DOWN s)) = UP
  /\ (demoMode (handleRandomizeOutcome s) = demoMode s
      /\ walletConnected (handleRandomizeOutcome s) = walletConnected s
      /\ walletAddress (handleRandomizeOutcome s) = walletAddress s
      /\ userDirection (handleRandomizeOutcome s) = userDirection s
      /\ userConfidence (handleRandomizeOutcome s) = userConfidence s
      /\ isLocked (handleRandomizeOutcome s) = isLocked s
      /\ timeRemaining (handleRandomizeOutcome s) = timeRemaining s
      /\ timerActive (handleRandomizeOutcome s) = timerActive s
      /\ showTimeWarning (handleRandomizeOutcome s) = showTimeWarning s
      /\ showOutcome (handleRandomizeOutcome s) = showOutcome s
      /\ commitmentHash (handleRandomizeOutcome s) = commitmentHash s
      /\ txStatus (handleRandomizeOutcome s) = txStatus s
      /\ txHash (handleRandomizeOutcome s) = txHash s)
  /\ handleRandomizeOutcome (handleRandomizeOutcome s) = s
  /\ (forall n,
        Nat.iter n handleRandomizeOutcome s =
        if Nat.even n then s else handleRandomizeOutcome s).
Proof.
  split; [rewrite handleRandomizeOutcome_flip; reflexivity|].
  split; [reflexivity|].
  split; [reflexivity|].
  split; [rewrite handleRandomizeOutcome_flip; cbn; tauto|].
  split; [apply handleRandomizeOutcome_involutive|].
  intros n; apply handleRandomizeOutcome_iter.
Qed.

(** On the page the toggle only exists once the outcome is shown, in demo
    mode. *)
Lemma toggle_rendered (w : World) :
  dispatch ClickToggleOutcome w =
  if showOutcome (ui w) && demoMode (ui w)
  then onUi handleRandomizeOutcome w else w.
Proof. reflexivity. Qed.

(** ** The countdown *)

Lemma tick_decrements (s : State) :
  timeRemaining (tick s) = timeRemaining s - 1.
Proof. reflexivity. Qed.

Lemma timerEffect_live (w : World) :
  timerActive (ui w) = true -> isLocked (ui w) = false ->
  0 < timeRemaining (ui w) ->
  timerEffect w = setInterval w.
Proof.
  intros Ha Hl Ht. unfold timerEffect. rewrite Ha, Hl; cbn [negb orb].
  replace (timeRemaining (ui w) <=? 0) with false by (symmetry; apply Z.leb_gt; lia).
  reflexivity.
Qed.

Lemma timerEffect_zero (w : World) :
  timerActive (ui w) = true -> isLocked (ui w) = false ->
  timeRemaining (ui w) <= 0 ->
  timerEffect w =
  if truthy_direction (userDirection (ui w)) then handleLockIn w
  else onUi (setTimerActive false) (onUi (setShowTimeWarning true) w).
Proof.
  intros Ha Hl Ht. apply Z.leb_le in Ht.
  unfold timerEffect. rewrite Ha, Hl, Ht. reflexivity.
Qed.

Lemma timerEffect_stopped (w : World) :
  timerActive (ui w) = false \/ isLocked (ui w) = true ->
  timerEffect w = w.
Proof.
  intros [H|H]; unfold timerEffect; rewrite H; [reflexivity|].
  destruct (timerActive (ui w)); reflexivity.
Qed.

(** C5. When the timer effect runs with the countdown at zero, the timer
    active and the decision not locked: with no direction chosen it sets the
    time warning and deactivates the timer, without locking and without
    scheduling a reveal; with a direction chosen it performs the lock
    action. *)
Theorem timerEffect_expiry (w : World)
    (Hactive : timerActive (ui w) = true)
    (Hunlocked : isLocked (ui w) = false)
    (Hzero : timeRemaining (ui w) <= 0) :
  match userDirection (ui w) with
  | None =>
      timerEffect w =
        onUi (setTimerActive false) (onUi (setShowTimeWarning true) w)
      /\ showTimeWarning (ui (timerEffect w)) = true
      /\ timerActive (ui (timerEffect w)) = false
      /\ isLocked (ui (timerEffect w)) = false
      /\ timeouts (timerEffect w) = timeouts w
      /\ interval (timerEffect (timerCleanup w)) = false
  | Some _ =>
      timerEffect w = handleLockIn w
      /\ isLocked (ui (timerEffect w)) = true
      /\ timerActive (ui (timerEffect w)) = false
      /\ timeouts (timerEffect w) =
         (timeouts w ++ [ {| due := now w + 800; callback := RevealOutcome |} ])%list
      /\ interval (timerEffect (timerCleanup w)) = false
  end.
Proof.
  rewrite (timerEffect_zero (timerCleanup w)) by assumption.
  rewrite (timerEffect_zero w) by assumption.
  unfold handleLockIn; cbn [timerCleanup clearInterval ui].
  destruct (userDirection (ui w)) as [d|]; cbn [truthy_direction negb];
    repeat split; exact Hunlocked.
Qed.

Lemma timerEffect_expiry_witness :
  timerActive (ui Demo.expiring) = true
  /\ isLocked (ui Demo.expiring) = false
  /\ timeRemaining (ui Demo.expiring) <= 0
  /\ showTimeWarning (ui (timerEffect Demo.expiring)) = true
  /\ isLocked (ui (timerEffect Demo.expiringChosen)) = true.
Proof.
  split; [reflexivity|]. split; [reflexivity|]. split; [discriminate|].
  split.
  - apply (timerEffect_expiry Demo.expiring); [reflexivity|reflexivity|discriminate].
  - apply (timerEffect_expiry Demo.expiringChosen);
      [reflexivity|reflexivity|discriminate].
Defined.

(** The countdown does reach zero: a live interval takes [timeRemaining]
    down by one each second and hands over to the expiry branch of the
    effect at zero. *)
Lemma countdown_running (w : World) :
  interval w = true -> timerActive (ui w) = true -> isLocked (ui w) = false ->
  1 < timeRemaining (ui w) ->
  countdown w = setInterval (timerCleanup (onUi tick (advance 1000 w))).
Proof.
  intros Hi Ha Hl Ht. unfold countdown. rewrite Hi.
  apply timerEffect_live; cbn; [assumption|assumption|lia].
Qed.

Lemma countdown_last (w : World) :
  interval w = true -> timerActive (ui w) = true -> isLocked (ui w) = false ->
  timeRemaining (ui w) = 1 ->
  countdown w =
  let w' := timerCleanup (onUi tick (advance 1000 w)) in
  if truthy_direction (userDirection (ui w)) then handleLockIn w'
  else onUi (setTimerActive false) (onUi (setShowTimeWarning true) w').
Proof.
  intros Hi Ha Hl Ht. unfold countdown. rewrite Hi.
  rewrite timerEffect_zero; cbn; [reflexivity|assumption|assumption|lia].
Qed.

(** X10. A live countdown with [n + 1] seconds left has expired [n + 1]
    seconds later: the time is at zero, the timer inactive and the interval
    cleared, with the decision locked if a direction was chosen and the
    time warning set if none was. *)
Lemma countdown_expires (n : nat) : forall w : World,
  interval w = true -> timerActive (ui w) = true -> isLocked (ui w) = false ->
  timeRemaining (ui w) = Z.of_nat (S n) ->
  let w' := Nat.iter (S n) countdown w in
  timeRemaining (ui w') = 0
  /\ timerActive (ui w') = false
  /\ interval w' = false
  /\ now w' = now w + 1000 * Z.of_nat (S n)
  /\ match userDirection (ui w) with
     | None => showTimeWarning (ui w') = true /\ isLocked (ui w') = false
     | Some _ => isLocked (ui w') = true
     end.
Proof.
  induction n as [|n IH]; intros w Hi Ha Hl Ht.
  - cbn [Nat.iter nat_rect]. change (Z.of_nat 1) with 1 in *.
    rewrite countdown_last by assumption.
    unfold handleLockIn; cbn.
    destruct (userDirection (ui w)); cbn; rewrite Ht; repeat split;
      first [assumption | lia].
  - cbv zeta.
    replace (Nat.iter (S (S n)) countdown w)
      with (Nat.iter (S n) countdown (countdown w))
      by (rewrite <- Nat.iter_succ_r; reflexivity).
    assert (Hstep := countdown_running w Hi Ha Hl ltac:(lia)).
    destruct (IH (countdown w)) as (H1 & H2 & H3 & H4 & H5);
      try (rewrite Hstep; cbn; first [assumption | reflexivity | lia]).
    repeat split; try assumption.
    + rewrite H4, Hstep; cbn. lia.
    + assert (Hu : userDirection (ui (countdown w)) = userDirection (ui w))
        by (rewrite Hstep; reflexivity).
      rewrite Hu in H5. exact H5.
Qed.

(** ** Submitting *)

Lemma truthy_string_empty (s : string) :
  truthy_string s = false <-> s = "".
Proof. destruct s; simpl; split; intros H; try reflexivity; discriminate H. Qed.

Lemma handleCommitProof_unfold (w : World) :
  handleCommitProof w =
  if truthy_string (commitmentHash (ui w))
  then setTimeout (ResumeCommitProof (demoMode (ui w))) 2000
         (onUi (setTxStatus pending) w)
  else w.
Proof.
  unfold handleCommitProof.
  destruct (truthy_string (commitmentHash (ui w))); reflexivity.
Qed.

Lemma commitDisabled_gate (s : State) :
  commitmentHash s = "" \/ txStatus s = pending \/ txStatus s = confirmed ->
  commitDisabled s = true.
Proof.
  unfold commitDisabled. intros [H|[H|H]]; rewrite H; cbn.
  - reflexivity.
  - destruct (truthy_string (commitmentHash s)); reflexivity.
  - destruct (truthy_string (commitmentHash s)); reflexivity.
Qed.

Lemma commitDisabled_enabled (s : State) :
  commitDisabled s = false ->
  truthy_string (commitmentHash s) = true
  /\ commitmentHash s <> "" /\ txStatus s = idle.
Proof.
  unfold commitDisabled. intros H.
  destruct (commitmentHash s) eqn:Hc; [discriminate H|].
  destruct (txStatus s); try discriminate H.
  repeat split. discriminate.
Qed.

(** C2. Submitting is pressing the commit button, the only caller of
    [handleCommitProof].  In every state where the commitment is empty, or
    the status is pending or confirmed, the press changes nothing at all:
    not the status, not the transaction identifier, nor anything else.
    Where the button is enabled, and only there, the commitment exists and
    the status is idle, and the press sets the status to pending and
    schedules the continuation.  Of the two conditions the handler itself
    tests the commitment; the status is tested by the [disabled] attribute
    of the button. *)
Theorem commit_gate (w : World) :
  (commitmentHash (ui w) = ""
   \/ txStatus (ui w) = pending \/ txStatus (ui w) = confirmed ->
   dispatch ClickCommit w = w)
  /\ dispatch ClickCommit w =
     (if commitDisabled (ui w) then w
      else setTimeout (ResumeCommitProof (demoMode (ui w))) 2000
             (onUi (setTxStatus pending) w))
  /\ (commitDisabled (ui w) = false ->
      commitmentHash (ui w) <> "" /\ txStatus (ui w) = idle)
  /\ handleCommitProof w =
     (if truthy_string (commitmentHash (ui w))
      then setTimeout (ResumeCommitProof (demoMode (ui w))) 2000
             (onUi (setTxStatus pending) w)
      else w)
  /\ handleCommitProof (onUi (setCommitmentHash "") w) =
     onUi (setCommitmentHash "") w.
Proof.
  split.
  { intros H. pose proof (commitDisabled_gate (ui w) H) as Hd.
    unfold dispatch; cbn [enabled]. rewrite Hd. reflexivity. }
  split.
  { unfold dispatch; cbn [enabled handler].
    destruct (commitDisabled (ui w)) eqn:Hd; cbn [negb]; [reflexivity|].
    destruct (commitDisabled_enabled (ui w) Hd) as (Ht & _).
    rewrite handleCommitProof_unfold, Ht. reflexivity. }
  split.
  { intros Hd. destruct (commitDisabled_enabled (ui w) Hd) as (_ & Hc & Hi).
    split; assumption. }
  split; [apply handleCommitProof_unfold|reflexivity].
Qed.

Lemma commit_gate_witness :
  (commitmentHash (ui Demo.committed) = ""
   \/ txStatus (ui Demo.committed) = pending
   \/ txStatus (ui Demo.committed) = confirmed)
  /\ dispatch ClickCommit Demo.committed = Demo.committed.
Proof.
  split.
  - right; right; reflexivity.
  - apply (proj1 (commit_gate Demo.committed)). right; right; reflexivity.
Defined.

(** The same three cases on worlds built to be in them. *)
Lemma commit_noop_cases (w : World) :
  dispatch ClickCommit (onUi (setCommitmentHash "") w) =
    onUi (setCommitmentHash "") w
  /\ dispatch ClickCommit (onUi (setTxStatus pending) w) =
     onUi (setTxStatus pending) w
  /\ dispatch ClickCommit (onUi (setTxStatus confirmed) w) =
     onUi (setTxStatus confirmed) w.
Proof.
  unfold dispatch; cbn [enabled].
  split; [|split].
  - rewrite commitDisabled_gate by (left; reflexivity). reflexivity.
  - rewrite commitDisabled_gate by (right; left; reflexivity). reflexivity.
  - rewrite commitDisabled_gate by (right; right; reflexivity). reflexivity.
Qed.

(** ** Confidence *)

Lemma rangeInputValue_range (v : Z) : 0 <= rangeInputValue v <= 100.
Proof.
  unfold rangeInputValue, confidence_min, confidence_max.
  destruct (Z.ltb_spec v 0); [lia|]. destruct (Z.ltb_spec 100 v); lia.
Qed.

Lemma rangeInputValue_clamp (v : Z) :
  rangeInputValue v = Z.max 0 (Z.min 100 v).
Proof.
  unfold rangeInputValue, confidence_min, confidence_max.
  destruct (Z.ltb_spec v 0); [lia|]. destruct (Z.ltb_spec 100 v); lia.
Qed.

Lemma onChangeConfidence_unfold (v : Z) (s : State) :
  onChangeConfidence v s = (if isLocked s then s else setUserConfidence v s).
Proof. unfold onChangeConfidence. destruct (isLocked s); reflexivity. Qed.

(** C3. Whatever value [v] the slider is taken to, the confidence stored
    is [v] clamped to [0, 100] while the decision is not locked, and nothing
    is stored (no cell changes) once it is locked.  The lock is tested twice,
    by the [disabled] attribute and by the handler; the clamp is the range
    input's, whose [min] is 0 and [max] 100, and the handler stores the
    value the input hands it. *)
Theorem slideConfidence_spec (s : State) (v : Z) :
  userConfidence (slideConfidence v s) =
    (if isLocked s then userConfidence s else Z.max 0 (Z.min 100 v))
  /\ 0 <= userConfidence (slideConfidence v (setIsLocked false s)) <= 100
  /\ (0 <= v <= 100 ->
      userConfidence (slideConfidence v (setIsLocked false s)) = v)
  /\ slideConfidence v (setIsLocked true s) = setIsLocked true s
  /\ slideConfidence v s =
     (if isLocked s then s
      else setUserConfidence (Z.max 0 (Z.min 100 v)) s)
  /\ onChangeConfidence v s = (if isLocked s then s else setUserConfidence v s)
  /\ onChangeConfidence v (setIsLocked true s) = setIsLocked true s
  /\ (forall w : World,
        dispatch (ChangeConfidence (rangeInputValue v)) w =
        onUi (slideConfidence v) w).
Proof.
  assert (Hs : slideConfidence v s =
               (if isLocked s then s
                else setUserConfidence (Z.max 0 (Z.min 100 v)) s)).
  { unfold slideConfidence. rewrite onChangeConfidence_unfold.
    rewrite rangeInputValue_clamp. destruct (isLocked s); reflexivity. }
  split; [rewrite Hs; destruct (isLocked s); reflexivity|].
  split.
  { unfold slideConfidence, onChangeConfidence; cbn.
    apply rangeInputValue_range. }
  split.
  { intros Hv. unfold slideConfidence, onChangeConfidence; cbn.
    rewrite rangeInputValue_clamp. lia. }
  split; [reflexivity|].
  split; [exact Hs|].
  split; [apply onChangeConfidence_unfold|].
  split; [reflexivity|].
  intros w. unfold dispatch; cbn [enabled handler].
  pose proof (rangeInputValue_range v) as Hr.
  unfold confidence_min, confidence_max.
  replace (0 <=? rangeInputValue v) with true by (symmetry; apply Z.leb_le; lia).
  replace (rangeInputValue v <=? 100) with true by (symmetry; apply Z.leb_le; lia).
  rewrite !andb_true_r. unfold onUi, slideConfidence.
  rewrite onChangeConfidence_unfold.
  destruct (isLocked (ui w)); cbn [negb]; [destruct w; reflexivity|reflexivity].
Qed.

(** Taken past the end of its track the slider stores the end. *)
Example slideConfidence_past_the_end :
  userConfidence (slideConfidence 150 initialState) = 100
  /\ userConfidence (slideConfidence (-7) initialState) = 0.
Proof. split; reflexivity. Qed.

(** The value the page holds stays within the slider's bounds whatever the
    user does. *)
Lemma dispatch_confidence (e : Event) (w : World) :
  0 <= userConfidence (ui w) <= 100 ->
  0 <= userConfidence (ui (dispatch e w)) <= 100.
Proof.
  intros H. unfold dispatch.
  destruct (enabled e (ui w)) eqn:He; [|exact H].
  destruct e; cbn [handler onUi ui].
  - exact H.
  - unfold handleConnectWallet. destruct (demoMode (ui w)); exact H.
  - unfold onClickDirection. destruct (isLocked (ui w)); exact H.
  - cbn [enabled] in He. unfold confidence_min, confidence_max in He.
    apply andb_prop in He as [He Hmax]. apply andb_prop in He as [Hl Hmin].
    unfold onChangeConfidence. rewrite Hl. cbn. lia.
  - unfold handleLockIn.
    destruct (truthy_direction (userDirection (ui w))); exact H.
  - cbn. lia.
  - exact H.
  - unfold handleCommitProof.
    destruct (truthy_string (commitmentHash (ui w))); exact H.
Qed.

(** ** Locking in *)

Lemma handleLockIn_unfold (w : World) :
  handleLockIn w =
  if truthy_direction (userDirection (ui w))
  then setTimeout RevealOutcome 800
         (onUi (setTimerActive false) (onUi (setIsLocked true) w))
  else w.
Proof.
  unfold handleLockIn.
  destruct (truthy_direction (userDirection (ui w))); reflexivity.
Qed.

(** A timeout registered [d] ms ago fires as soon as, and no sooner than,
    [d] ms have passed. *)
Lemma runTimeout_setTimeout (R : nat -> Q) (cb : Callback) (d ms : Z)
    (w : World) :
  runTimeout R (length (timeouts w)) (advance ms (setTimeout cb d w)) =
  if d <=? ms then Some (fire R cb (advance ms w)) else None.
Proof.
  unfold runTimeout, advance, setTimeout; cbn [timeouts now].
  rewrite list_lookup_middle by reflexivity. cbn [due callback].
  replace (now w + d <=? now w + ms) with (d <=? ms)
    by (destruct (Z.leb_spec d ms), (Z.leb_spec (now w + d) (now w + ms));
        try reflexivity; lia).
  destruct (d <=? ms); [|reflexivity].
  unfold dequeue; cbn [timeouts ui now interval randomCalls].
  rewrite delete_middle, app_nil_r. reflexivity.
Qed.

Lemma fire_reveal_idempotent (R : nat -> Q) (w : World) :
  fire R RevealOutcome (fire R RevealOutcome w) = fire R RevealOutcome w.
Proof. destruct w as [s t q i r]; destruct s; reflexivity. Qed.

Lemma setLocked_idempotent (s : State) :
  setTimerActive false (setIsLocked true
    (setTimerActive false (setIsLocked true s))) =
  setTimerActive false (setIsLocked true s).
Proof. destruct s; reflexivity. Qed.

(** C6, as stated, fails: the outcome is not always revealed once after
    a lock.  In the session [Late.world], which the page reaches, the
    outcome is already shown when the decision is locked, a reveal left
    over from the session before having fired; locking, once or twice, and
    letting every reveal it scheduled fire takes the outcome from hidden to
    shown not once but never. *)
Lemma handleLockIn_after_late_reveal :
  session Demo.random Viem.encodePacked Viem.keccak256 Late.script mounted
  = Some Late.world
  /\ userDirection (ui Late.world) = Some DOWN
  /\ isLocked (ui Late.world) = false
  /\ timeouts Late.world = []
  /\ showOutcome (ui Late.world) = true
  /\ (let w1 := handleLockIn Late.world in
      reveals [ui Late.world; ui w1; ui (fire Demo.random RevealOutcome w1)]
      = 0%nat)
  /\ (let w1 := handleLockIn Late.world in
      let w2 := handleLockIn (advance 100 w1) in
      let shown := fire Demo.random RevealOutcome w2 in
      reveals [ui Late.world; ui w1; ui w2; ui shown;
               ui (fire Demo.random RevealOutcome shown)] = 0%nat).
Proof. vm_compute. repeat split. Qed.

(** C6, amended: as stated, but with the count of reveals told by whether
    the outcome was hidden when the decision was locked.
    [handleLockIn] changes nothing and schedules nothing when no
    direction is chosen.  With a direction chosen it sets the lock flag,
    deactivates the timer and schedules the reveal 800 ms ahead: the
    callback cannot fire earlier, and sets [showOutcome] when it does.  A
    second call, [dt] ms later, leaves every cell as the first left it (lock
    flag set, timer inactive); it queues a second reveal, and of the two
    only the first changes anything: an outcome that was hidden when the
    decision was locked goes from hidden to shown exactly once, and one
    that was already shown does not go from hidden to shown at all. *)
Theorem handleLockIn_spec (R : nat -> Q) (w : World) (dt ms : Z) :
  match userDirection (ui w) with
  | None => handleLockIn w = w
  | Some _ =>
      let n := length (timeouts w) in
      let w1 := handleLockIn w in
      let w2 := handleLockIn (advance dt w1) in
      let shown := fire R RevealOutcome w2 in
      (ui w1 = setTimerActive false (setIsLocked true (ui w))
       /\ isLocked (ui w1) = true
       /\ timerActive (ui w1) = false
       /\ timeouts w1 =
          (timeouts w ++ [ {| due := now w + 800; callback := RevealOutcome |} ])%list)
      /\ runTimeout R n (advance ms w1) =
         (if 800 <=? ms
          then Some (onUi (setShowOutcome true)
                      (onUi (setTimerActive false)
                        (onUi (setIsLocked true) (advance ms w))))
          else None)
      /\ (ui w2 = ui w1
          /\ timeouts w2 =
             (timeouts w1 ++
              [ {| due := now w + dt + 800; callback := RevealOutcome |} ])%list)
      /\ showOutcome (ui shown) = true
      /\ fire R RevealOutcome shown = shown
      /\ reveals [ui w2; ui shown; ui (fire R RevealOutcome shown)] =
         (if showOutcome (ui w) then 0 else 1)%nat
  end.
Proof.
  destruct (userDirection (ui w)) as [d|] eqn:Hd.
  2:{ rewrite handleLockIn_unfold, Hd. reflexivity. }
  assert (H1 : handleLockIn w =
               setTimeout RevealOutcome 800
                 (onUi (setTimerActive false) (onUi (setIsLocked true) w)))
    by (rewrite handleLockIn_unfold, Hd; reflexivity).
  cbv zeta. rewrite H1.
  split; [repeat split|].
  split.
  { change (length (timeouts w))
      with (length (timeouts (onUi (setTimerActive false)
                                (onUi (setIsLocked true) w)))).
    rewrite runTimeout_setTimeout. reflexivity. }
  rewrite handleLockIn_unfold.
  cbn [advance setTimeout onUi ui now timeouts interval randomCalls
       setTimerActive setIsLocked userDirection].
  rewrite Hd. cbn [truthy_direction].
  cbn [advance setTimeout onUi ui now timeouts interval randomCalls fire].
  split.
  { split; [apply setLocked_idempotent|reflexivity]. }
  split; [reflexivity|].
  split.
  { exact (fire_reveal_idempotent R _). }
  cbn. destruct (showOutcome (ui w)); reflexivity.
Qed.

(** The scheduled reveal is not cancelled by a reset: fired after one, it
    shows the outcome of a session that is no longer locked. *)
Example reveal_after_reset :
  Demo.play [User ClickReset; Wait 800; Fire 0%nat] Demo.locked =
  Some (onUi (setShowOutcome true)
         (advance 800 (onUi resetDemo
           {| ui := ui Demo.locked; now := now Demo.locked; timeouts := [];
              interval := false; randomCalls := 0 |}))).
Proof. vm_compute. reflexivity. Qed.

(** After locking, the lock-in button is no longer on the page. *)
Lemma dispatch_lockIn_locked (w : World) :
  isLocked (ui w) = true -> dispatch ClickLockIn w = w.
Proof. intros H. unfold dispatch; cbn [enabled]. rewrite H. reflexivity. Qed.

(** ** The simulated transaction *)

Lemma Math_floor_16 (q : Q) :
  (0 <= q)%Q -> (q < 1)%Q -> 0 <= Math_floor (q * inject_Z 16) < 16.
Proof.
  intros H0 H1. unfold Math_floor. split.
  - change 0 with (Qfloor 0). apply Qfloor_resp_le.
    apply Qmult_le_0_compat; [exact H0|discriminate].
  - rewrite Zlt_Qlt.
    apply Qle_lt_trans with (q * inject_Z 16)%Q; [apply Qfloor_le|].
    change (inject_Z 16) with (1 * inject_Z 16)%Q at 2.
    apply Qmult_lt_compat_r; [reflexivity|exact H1].
Qed.

Lemma Number_toString16_digit (z : Z) :
  0 <= z < 16 -> isHexChar (Number_toString16 z).
Proof.
  intros Hz.
  assert (H : z = 0 \/ z = 1 \/ z = 2 \/ z = 3 \/ z = 4 \/ z = 5 \/ z = 6
              \/ z = 7 \/ z = 8 \/ z = 9 \/ z = 10 \/ z = 11 \/ z = 12
              \/ z = 13 \/ z = 14 \/ z = 15) by lia.
  repeat (destruct H as [H|H]; [subst z; eexists; split; reflexivity|]).
  subst z; eexists; split; reflexivity.
Qed.

Lemma join_cons (x : string) (xs : list string) :
  join (x :: xs) = x +:+ join xs.
Proof.
  unfold join. destruct xs as [|y ys]; cbn [String.concat].
  - induction x as [|c x IH]; [reflexivity|].
    change (String c x +:+ "") with (String c (x +:+ "")).
    rewrite <- IH. reflexivity.
  - reflexivity.
Qed.

Lemma join_hexChars (parts : list string) :
  Forall isHexChar parts ->
  String.length (join parts) = length parts
  /\ forallb isHexDigit (list_ascii_of_string (join parts)) = true.
Proof.
  induction 1 as [|x xs [c [-> Hc]] _ [IHlen IHall]]; [split; reflexivity|].
  rewrite join_cons.
  change (String c "" +:+ join xs) with (String c (join xs)).
  cbn [String.length list_ascii_of_string forallb length].
  rewrite IHlen, Hc, IHall. split; reflexivity.
Qed.

Lemma Array_from_Forall {A : Type} (P : A -> Prop) (f : nat -> A) (len : nat) :
  (forall i, P (f i)) -> Forall P (Array_from len f).
Proof.
  intros Hf. unfold Array_from. generalize 0%nat.
  induction len as [|len IH]; intros k; cbn [seq List.map]; constructor; auto.
Qed.

Lemma Array_from_length {A : Type} (f : nat -> A) (len : nat) :
  length (Array_from len f) = len.
Proof. unfold Array_from. rewrite List.length_map. apply length_seq. Qed.

Lemma Array_from_ext {A : Type} (f g : nat -> A) (len : nat) :
  (forall i, (i < len)%nat -> f i = g i) -> Array_from len f = Array_from len g.
Proof.
  intros H. unfold Array_from. apply map_ext_in.
  intros i Hi. apply in_seq in Hi. apply H. lia.
Qed.

Lemma fakeTxHash_digest (R : nat -> Q) (k : nat) :
  (forall i, (0 <= R i)%Q /\ (R i < 1)%Q) ->
  isHexDigest (fakeTxHash R k) = true.
Proof.
  intros HR. unfold fakeTxHash.
  set (digits := Array_from 64 _).
  change ("0x" +:+ join digits) with (String "0" (String "x" (join digits))).
  assert (Hd : Forall isHexChar digits).
  { apply Array_from_Forall. intros i.
    apply Number_toString16_digit, Math_floor_16; apply HR. }
  apply join_hexChars in Hd as [Hlen Hall].
  unfold isHexDigest. rewrite Hlen, Hall.
  unfold digits. rewrite Array_from_length. reflexivity.
Qed.

(** The hash is made from the sixty-four random numbers drawn for it and
    from nothing else. *)
Lemma fakeTxHash_ext (R R' : nat -> Q) (k : nat) :
  (forall i, (i < 64)%nat -> (R (k + i)%nat == R' (k + i)%nat)%Q) ->
  fakeTxHash R k = fakeTxHash R' k.
Proof.
  intros H. unfold fakeTxHash. do 2 f_equal.
  apply Array_from_ext. intros i Hi. f_equal. unfold Math_floor.
  apply Qfloor_comp. rewrite (H i Hi). reflexivity.
Qed.

Lemma Number_toString16_get (z : Z) :
  0 <= z < 16 ->
  exists c, Number_toString16 z = String c ""
            /\ String.get (Z.to_nat z) "0123456789abcdef" = Some c.
Proof.
  intros Hz.
  assert (H : z = 0 \/ z = 1 \/ z = 2 \/ z = 3 \/ z = 4 \/ z = 5 \/ z = 6
              \/ z = 7 \/ z = 8 \/ z = 9 \/ z = 10 \/ z = 11 \/ z = 12
              \/ z = 13 \/ z = 14 \/ z = 15) by lia.
  repeat (destruct H as [H|H]; [subst z; eexists; split; reflexivity|]).
  subst z; eexists; split; reflexivity.
Qed.

Lemma Array_from_nth {A : Type} (f : nat -> A) (len i : nat) :
  (i < len)%nat -> nth_error (Array_from len f) i = Some (f i).
Proof.
  unfold Array_from. change (f i) with (f (0 + i)%nat). generalize 0%nat.
  revert i. induction len as [|len IH]; intros i a Hi; [lia|].
  destruct i as [|i]; cbn [seq List.map nth_error].
  - rewrite Nat.add_0_r. reflexivity.
  - rewrite (IH i (S a)) by lia. do 2 f_equal. lia.
Qed.

(** The [i]-th character of the pieces joined, when each piece is one
    character. *)
Lemma join_get (parts : list string) : forall (i : nat) (c : ascii),
  Forall (fun s => exists c', s = String c' "") parts ->
  nth_error parts i = Some (String c "") ->
  String.get i (join parts) = Some c.
Proof.
  induction parts as [|x xs IH]; intros i c Hall Hi.
  - destruct i; discriminate Hi.
  - inversion Hall as [|? ? [c' ->] Hxs]; subst.
    rewrite join_cons.
    change (String c' "" +:+ join xs) with (String c' (join xs)).
    destruct i as [|i]; cbn [nth_error String.get] in *.
    + injection Hi as ->. reflexivity.
    + exact (IH i c Hxs Hi).
Qed.

(** Digit by digit: the [i]-th digit after ['0x'] is the hexadecimal digit
    of the [i]-th random number drawn for the hash, scaled to [0, 16). *)
Lemma fakeTxHash_get (R : nat -> Q) (k i : nat) :
  (forall j, (0 <= R j)%Q /\ (R j < 1)%Q) ->
  (i < 64)%nat ->
  String.get (2 + i) (fakeTxHash R k) =
  String.get (Z.to_nat (Math_floor (R (k + i)%nat * inject_Z 16)))
             "0123456789abcdef".
Proof.
  intros HR Hi. unfold fakeTxHash.
  set (f := fun j : nat =>
              Number_toString16 (Math_floor (R (k + j)%nat * inject_Z 16))).
  change ("0x" +:+ join (Array_from 64 f))
    with (String "0" (String "x" (join (Array_from 64 f)))).
  change (String.get (2 + i) (String "0" (String "x" (join (Array_from 64 f)))))
    with (String.get i (join (Array_from 64 f))).
  destruct (Number_toString16_get
              (Math_floor (R (k + i)%nat * inject_Z 16))) as (c & Hc & Hg).
  { apply Math_floor_16; apply HR. }
  rewrite Hg. apply join_get.
  - apply Array_from_Forall. intros j.
    destruct (Number_toString16_get
                (Math_floor (R (k + j)%nat * inject_Z 16))) as (c' & Hc' & _).
    { apply Math_floor_16; apply HR. }
    exists c'. exact Hc'.
  - rewrite Array_from_nth by exact Hi. unfold f. rewrite Hc. reflexivity.
Qed.

Lemma commitDisabled_idle (s : State) :
  demoMode s = true -> commitmentHash s <> "" -> txStatus s = idle ->
  commitDisabled s = false /\ truthy_string (commitmentHash s) = true.
Proof.
  intros Hd Hc Hi. unfold commitDisabled. rewrite Hd, Hi.
  destruct (commitmentHash s); [contradiction|]. split; reflexivity.
Qed.

(** C7. In demo mode, with a commitment and the submission idle, pressing
    the commit button sets the status to pending at once and schedules the
    continuation 2000 ms ahead; it cannot run earlier, and when it runs it
    always ends in confirmed, with a transaction identifier that is ['0x']
    and 64 hexadecimal digits.  The identifier is generated then and there:
    its [i]-th digit is the hexadecimal digit of the [i]-th of the next 64
    random numbers, scaled to [0, 16), and the submission after this one
    makes its identifier in the same way from the 64 numbers that
    follow. *)
Theorem demo_submit (R : nat -> Q) (w : World) (ms : Z)
    (HR : forall k, (0 <= R k)%Q /\ (R k < 1)%Q)
    (Hdemo : demoMode (ui w) = true)
    (Hcommit : commitmentHash (ui w) <> "")
    (Hidle : txStatus (ui w) = idle) :
  let n := length (timeouts w) in
  let w1 := dispatch ClickCommit w in
  let hash := fakeTxHash R (randomCalls w) in
  let w2 :=
    onUi (setTxStatus confirmed)
      (onUi (setTxHash hash)
        (drawn 64 (advance ms (onUi (setTxStatus pending) w)))) in
  w1 = handleCommitProof w
  /\ txStatus (ui w1) = pending
  /\ txHash (ui w1) = txHash (ui w)
  /\ timeouts w1 =
     (timeouts w ++
      [ {| due := now w + 2000; callback := ResumeCommitProof true |} ])%list
  /\ runTimeout R n (advance ms w1) = (if 2000 <=? ms then Some w2 else None)
  /\ txStatus (ui w2) = confirmed
  /\ txHash (ui w2) = hash
  /\ isHexDigest hash = true
  /\ randomCalls w2 = (randomCalls w + 64)%nat
  /\ timeouts w2 = timeouts w
  /\ (forall i, (i < 64)%nat ->
        String.get (2 + i) (txHash (ui w2)) =
        String.get
          (Z.to_nat (Math_floor (R (randomCalls w + i)%nat * inject_Z 16)))
          "0123456789abcdef")
  /\ (forall (x : World) (i : nat),
        randomCalls x = randomCalls w2 -> (i < 64)%nat ->
        String.get (2 + i) (txHash (ui (fire R (ResumeCommitProof true) x))) =
        String.get
          (Z.to_nat
             (Math_floor (R (randomCalls w + 64 + i)%nat * inject_Z 16)))
          "0123456789abcdef").
Proof.
  destruct (commitDisabled_idle (ui w) Hdemo Hcommit Hidle) as [Hen Htr].
  cbv zeta.
  assert (H1 : dispatch ClickCommit w = handleCommitProof w)
    by (unfold dispatch; cbn [enabled handler]; rewrite Hen; reflexivity).
  rewrite H1, handleCommitProof_unfold, Htr, Hdemo.
  split; [reflexivity|].
  split; [reflexivity|].
  split; [reflexivity|].
  split; [reflexivity|].
  split.
  { change (length (timeouts w))
      with (length (timeouts (onUi (setTxStatus pending) w))).
    rewrite runTimeout_setTimeout. reflexivity. }
  split; [reflexivity|].
  split; [reflexivity|].
  split; [apply fakeTxHash_digest, HR|].
  split; [reflexivity|].
  split; [reflexivity|].
  split.
  - intros i Hi. exact (fakeTxHash_get R (randomCalls w) i HR Hi).
  - intros x i Hx Hi.
    change (txHash (ui (fire R (ResumeCommitProof true) x)))
      with (fakeTxHash R (randomCalls x)).
    rewrite Hx.
    change (randomCalls
              (onUi (setTxStatus confirmed)
                 (onUi (setTxHash (fakeTxHash R (randomCalls w)))
                    (drawn 64 (advance ms (onUi (setTxStatus pending) w))))))
      with (randomCalls w + 64)%nat.
    exact (fakeTxHash_get R (randomCalls w + 64) i HR Hi).
Qed.

Lemma Demo_random_range (k : nat) :
  (0 <= Demo.random k)%Q /\ (Demo.random k < 1)%Q.
Proof.
  unfold Demo.random, Qle, Qlt; cbn [Qnum Qden].
  pose proof (Nat.mod_upper_bound (7 * k + 3) 16 ltac:(discriminate)).
  lia.
Qed.

Lemma demo_submit_witness :
  demoMode (ui Demo.revealed) = true
  /\ commitmentHash (ui Demo.revealed) <> ""
  /\ txStatus (ui Demo.revealed) = idle
  /\ txStatus (ui (dispatch ClickCommit Demo.revealed)) = pending
  /\ runTimeout Demo.random 0 (advance 2000 (dispatch ClickCommit Demo.revealed))
     = Some Demo.committed
  /\ txHash (ui Demo.committed) =
     "0x3a18f6d4b2907e5c3a18f6d4b2907e5c3a18f6d4b2907e5c3a18f6d4b2907e5c".
Proof.
  assert (Hc : commitmentHash (ui Demo.revealed) <> "") by discriminate.
  pose proof (demo_submit Demo.random Demo.revealed 2000 Demo_random_range
                eq_refl Hc eq_refl) as H.
  cbv zeta in H.
  destruct H as (_ & Hp & _ & _ & Hrun & _).
  split; [reflexivity|]. split; [exact Hc|]. split; [reflexivity|].
  split; [exact Hp|].
  split; [|reflexivity].
  refine (eq_trans Hrun _). vm_compute. reflexivity.
Defined.

(** ** The commitment *)

Lemma zeroDigest_value :
  zeroDigest =
  "0x0000000000000000000000000000000000000000000000000000000000000000".
Proof. reflexivity. Qed.

Lemma zeroDigest_digest : isHexDigest zeroDigest = true.
Proof. reflexivity. Qed.

Lemma isHexDigest_length (h : string) :
  isHexDigest h = true -> String.length h = 66%nat.
Proof.
  unfold isHexDigest.
  destruct h as [|a [|b digits]]; try discriminate.
  intros H. apply andb_prop in H as [H _]. apply andb_prop in H as [_ H].
  apply Nat.eqb_eq in H. cbn [String.length]. rewrite H. reflexivity.
Qed.

Lemma computeCommitment_unfold
    (encodePacked : list AbiType -> list AbiValue -> Completion string)
    (keccak256 : string -> Completion string) (s : State) (t : Z) :
  computeCommitment encodePacked keccak256 s t =
  match encodePacked commitmentTypes (commitmentValues s t) with
  | Normal packed =>
      match keccak256 packed with
      | Normal hash => hash
      | Throw => zeroDigest
      end
  | Throw => zeroDigest
  end.
Proof.
  unfold computeCommitment, commitmentTypes, commitmentValues, BigInt.
  unfold mbind, Completion_bind.
  destruct (encodePacked _ _) as [packed|]; [|reflexivity].
  destruct (keccak256 packed); reflexivity.
Qed.

(** C8. Whatever [encodePacked] and [keccak256] do, as long as a digest
    [keccak256] returns is ['0x'] and 64 hexadecimal digits,
    [computeCommitment] returns a string of that shape: the [keccak256]
    digest of the packed (address, analysis direction, analysis
    confidence, user direction, user confidence, outcome, timestamp in
    seconds) when both calls return, and the all-zero digest when either
    throws.  It returns in every case. *)
Theorem computeCommitment_spec
    (encodePacked : list AbiType -> list AbiValue -> Completion string)
    (keccak256 : string -> Completion string)
    (Hkeccak : forall x h, keccak256 x = Normal h -> isHexDigest h = true)
    (s : State) (t : Z) :
  isHexDigest (computeCommitment encodePacked keccak256 s t) = true
  /\ String.length (computeCommitment encodePacked keccak256 s t) = 66%nat
  /\ computeCommitment encodePacked keccak256 s t =
     match encodePacked commitmentTypes (commitmentValues s t) with
     | Normal packed =>
         match keccak256 packed with
         | Normal hash => hash
         | Throw => zeroDigest
         end
     | Throw => zeroDigest
     end
  /\ zeroDigest =
     "0x0000000000000000000000000000000000000000000000000000000000000000".
Proof.
  assert (H : isHexDigest (computeCommitment encodePacked keccak256 s t) = true).
  { rewrite computeCommitment_unfold.
    destruct (encodePacked _ _) as [packed|]; [|exact zeroDigest_digest].
    destruct (keccak256 packed) as [hash|] eqn:Hk; [|exact zeroDigest_digest].
    exact (Hkeccak packed hash Hk). }
  split; [exact H|].
  split; [exact (isHexDigest_length _ H)|].
  split; [apply computeCommitment_unfold|exact zeroDigest_value].
Qed.

(** The runnable [keccak256] meets the hypothesis. *)
Lemma hexDigit_isHexDigit (n : Z) : isHexDigit (Viem.hexDigit n) = true.
Proof.
  destruct n as [|p|p]; [reflexivity| |reflexivity].
  do 4 (destruct p as [p|p|]; try reflexivity).
Qed.

Lemma hexOfBytes_length (bs : list Z) :
  String.length (Viem.hexOfBytes bs) = (2 * length bs)%nat.
Proof.
  induction bs as [|b bs IH]; [reflexivity|].
  cbn [Viem.hexOfBytes String.length length]. rewrite IH. lia.
Qed.

Lemma hexOfBytes_digits (bs : list Z) :
  forallb isHexDigit (list_ascii_of_string (Viem.hexOfBytes bs)) = true.
Proof.
  induction bs as [|b bs IH]; [reflexivity|].
  cbn [Viem.hexOfBytes list_ascii_of_string forallb].
  rewrite !hexDigit_isHexDigit, IH. reflexivity.
Qed.

Lemma squeeze_length (A : list Z) : length (Viem.squeeze A) = 32%nat.
Proof. reflexivity. Qed.

Lemma Viem_keccak256_digest (x h : string) :
  Viem.keccak256 x = Normal h -> isHexDigest h = true.
Proof.
  unfold Viem.keccak256. destruct (Viem.hexToBytes x) as [bs|]; [|discriminate].
  intros [= <-]. unfold Viem.bytesToHex, Viem.keccak_256.
  set (A := Viem.absorb _ _ _).
  change ("0x" +:+ Viem.hexOfBytes (Viem.squeeze A))
    with (String "0" (String "x" (Viem.hexOfBytes (Viem.squeeze A)))).
  unfold isHexDigest.
  rewrite hexOfBytes_length, squeeze_length, hexOfBytes_digits. reflexivity.
Qed.

Lemma computeCommitment_spec_witness :
  computeCommitment Viem.encodePacked Viem.keccak256
    (ui Demo.revealed) 5800 =
  "0x0ccf3663dc2504694a23297744e0f0c974064abc2bda115e39ff31a492bf6b1e"
  /\ isHexDigest
       (computeCommitment Viem.encodePacked Viem.keccak256
          (ui Demo.revealed) 5800) = true.
Proof.
  split; [vm_compute; reflexivity|].
  apply (computeCommitment_spec Viem.encodePacked Viem.keccak256
           Viem_keccak256_digest (ui Demo.revealed) 5800).
Defined.

(** The [catch] is reachable: a negative confidence is not a [uint256], the
    encoder throws, and the commitment is the all-zero digest. *)
Example computeCommitment_fallback :
  computeCommitment Viem.encodePacked Viem.keccak256
    (setUserConfidence (-1) initialState) 5800 = zeroDigest.
Proof. vm_compute. reflexivity. Qed.

Example keccak256_empty :
  Viem.keccak256 "0x" =
  Normal "0xc5d2460186f7233c927e7db2dcc703c0e500b653ca82273b7bfad8045d85a470".
Proof. vm_compute. reflexivity. Qed.

Example keccak256_abc :
  Viem.keccak256 "0x616263" =
  Normal "0x4e03657aea45a94fc7d47ba826c8d667c0d1e6e33a64a036ec44f58fa12d6c45".
Proof. vm_compute. reflexivity. Qed.

(** The commitment effect stores it once the decision is locked and the
    outcome shown, and not before. *)
Lemma commitmentEffect_unfold
    (encodePacked : list AbiType -> list AbiValue -> Completion string)
    (keccak256 : string -> Completion string) (w : World) :
  commitmentHash (ui (commitmentEffect encodePacked keccak256 w)) =
  if isLocked (ui w) && showOutcome (ui w)
  then computeCommitment encodePacked keccak256 (ui w) (now w)
  else commitmentHash (ui w).
Proof.
  unfold commitmentEffect.
  destruct (isLocked (ui w) && showOutcome (ui w)); reflexivity.
Qed.

(** * Further properties *)

(** ** What every run of the page keeps *)

Section Runs.

Variable Math_random : nat -> Q.
Variable encodePacked : list AbiType -> list AbiValue -> Completion string.
Variable keccak256 : string -> Completion string.

(** A property every action preserves holds all along a run. *)
Lemma run_invariant (P : World -> Prop) :
  (forall a w w', P w -> perform Math_random encodePacked keccak256 a w = Some w' -> P w') ->
  forall script w w', P w -> run Math_random encodePacked keccak256 script w = Some w' -> P w'.
Proof.
  intros Hstep. induction script as [|a script IH]; intros w w' Hw Hrun.
  - injection Hrun as <-. exact Hw.
  - cbn [run] in Hrun. destruct (perform Math_random encodePacked keccak256 a w) as [w1|] eqn:Ha; [|discriminate].
    exact (IH w1 w' (Hstep a w w1 Hw Ha) Hrun).
Qed.

Lemma run_app (s1 s2 : list Action) (w : World) :
  run Math_random encodePacked keccak256 (s1 ++ s2)%list w =
  match run Math_random encodePacked keccak256 s1 w with
  | Some w' => run Math_random encodePacked keccak256 s2 w'
  | None => None
  end.
Proof.
  revert w. induction s1 as [|a s1 IH]; intros w; [reflexivity|].
  cbn [run app]. destruct (perform Math_random encodePacked keccak256 a w); [apply IH|reflexivity].
Qed.

(** What an action leaves of the page: it is one of the handlers, effects
    and callbacks applied to the state. *)
Lemma perform_cases (a : Action) (w w' : World) :
  perform Math_random encodePacked keccak256 a w = Some w' ->
  (exists e, w' = dispatch e w)
  \/ (exists ms, w' = advance ms w)
  \/ (exists i t, timeouts w !! i = Some t /\ due t <= now w
                  /\ w' = fire Math_random (callback t) (dequeue i w))
  \/ w' = timerEffect (timerCleanup w)
  \/ w' = commitmentEffect encodePacked keccak256 w
  \/ (interval w = true /\ w' = countdown w).
Proof.
  destruct a as [e|ms|i| | |]; cbn [perform]; intros H.
  - injection H as <-. left. eauto.
  - destruct (0 <=? ms); [|discriminate]. injection H as <-. right; left. eauto.
  - unfold runTimeout in H. destruct (timeouts w !! i) as [t|] eqn:Ht; [|discriminate].
    destruct (due t <=? now w) eqn:Hd; [|discriminate]. injection H as <-.
    apply Z.leb_le in Hd. right; right; left. eauto.
  - injection H as <-. tauto.
  - injection H as <-. tauto.
  - destruct (interval w) eqn:Hi; [|discriminate]. injection H as <-. tauto.
Qed.

Lemma dispatch_steps (e : Event) (w : World) :
  rtc Step (ui w) (ui (dispatch e w)).
Proof.
  unfold dispatch. destruct (enabled e (ui w)) eqn:He; [|apply rtc_refl].
  apply rtc_once. destruct e; cbn [enabled] in He; cbn [handler onUi ui].
  - constructor.
  - constructor.
  - apply negb_true_iff in He. unfold onClickDirection. rewrite He.
    constructor; assumption.
  - apply andb_prop in He as [He Hmax]. apply andb_prop in He as [Hl Hmin].
    apply negb_true_iff in Hl. apply Z.leb_le in Hmin, Hmax.
    unfold onChangeConfidence. rewrite Hl. constructor; [assumption|lia].
  - apply andb_prop in He as [Hl Hd]. apply negb_true_iff in Hl.
    rewrite handleLockIn_unfold, Hd. constructor; assumption.
  - constructor; assumption.
  - apply andb_prop in He as [Ho Hd]. constructor; assumption.
  - apply negb_true_iff in He.
    assert (Ht : truthy_string (commitmentHash (ui w)) = true).
    { unfold commitDisabled in He.
      destruct (truthy_string (commitmentHash (ui w))); [reflexivity|discriminate]. }
    rewrite handleCommitProof_unfold, Ht. constructor; assumption.
Qed.

Lemma timerEffect_steps (w : World) :
  rtc Step (ui w) (ui (timerEffect w)).
Proof.
  unfold timerEffect.
  destruct (timerActive (ui w)) eqn:Ha; [|apply rtc_refl].
  destruct (isLocked (ui w)) eqn:Hl; [apply rtc_refl|]. cbn [negb orb].
  destruct (timeRemaining (ui w) <=? 0) eqn:Ht; [|apply rtc_refl].
  apply Z.leb_le in Ht. apply rtc_once.
  destruct (userDirection (ui w)) as [d|] eqn:Hd.
  - rewrite handleLockIn_unfold, Hd. constructor; [assumption|].
    rewrite Hd. reflexivity.
  - apply step_expire; assumption.
Qed.

Lemma fire_steps (cb : Callback) (w : World) :
  rtc Step (ui w) (ui (fire Math_random cb w)).
Proof. apply rtc_once. destruct cb as [|[|]]; constructor. Qed.

Lemma commitmentEffect_steps (w : World) :
  rtc Step (ui w) (ui (commitmentEffect encodePacked keccak256 w)).
Proof.
  unfold commitmentEffect.
  destruct (isLocked (ui w)) eqn:Hl; [|apply rtc_refl].
  destruct (showOutcome (ui w)) eqn:Ho; [|apply rtc_refl].
  apply rtc_once. constructor; assumption.
Qed.

(** Every action is a sequence of such changes. *)
Lemma perform_steps (a : Action) (w w' : World) :
  perform Math_random encodePacked keccak256 a w = Some w' ->
  rtc Step (ui w) (ui w').
Proof.
  intros H. apply perform_cases in H.
  destruct H as [[e ->]|[[ms ->]|[(i & t & _ & _ & ->)|[->|[->|[_ ->]]]]]].
  - apply dispatch_steps.
  - apply rtc_refl.
  - apply (fire_steps (callback t) (dequeue i w)).
  - apply (timerEffect_steps (timerCleanup w)).
  - apply commitmentEffect_steps.
  - unfold countdown. destruct (interval w); [|apply rtc_refl].
    eapply rtc_l; [apply step_tick|].
    apply (timerEffect_steps (timerCleanup (onUi tick (advance 1000 w)))).
Qed.

Lemma run_steps (script : list Action) (w w' : World) :
  run Math_random encodePacked keccak256 script w = Some w' ->
  rtc Step (ui w) (ui w').
Proof.
  revert w. induction script as [|a script IH]; intros w Hrun.
  - injection Hrun as <-. apply rtc_refl.
  - cbn [run] in Hrun.
    destruct (perform Math_random encodePacked keccak256 a w) as [w1|] eqn:Ha;
      [|discriminate].
    eapply rtc_trans; [exact (perform_steps a w w1 Ha)|exact (IH w1 Hrun)].
Qed.

Lemma commitDisabled_false (s : State) :
  commitDisabled s = false ->
  commitmentHash s <> "" /\ txStatus s = idle
  /\ (demoMode s = true \/ walletConnected s = true).
Proof.
  unfold commitDisabled. intros H.
  destruct (commitmentHash s) eqn:Hc; [discriminate|].
  destruct (txStatus s); try discriminate.
  split; [discriminate|]. split; [reflexivity|].
  destruct (demoMode s); [left; reflexivity|].
  destruct (walletConnected s); [right; reflexivity|discriminate].
Qed.

Lemma Step_consistent (s s' : State) :
  consistent s -> Step s s' -> consistent s'.
Proof.
  intros (Hc & Hl & Hh & Ht & Hw) Hstep. unfold consistent.
  destruct Hstep as [ | |d Hu|v Hu Hv|Hu Hd|Ha Hu Hz Hd|Hk|Ho Hm|Hs|hash Hk Ho
                     | | |hash| ].
  - cbn. auto.
  - unfold handleConnectWallet. destruct (demoMode s); cbn; auto.
  - cbn. intuition congruence.
  - cbn. unfold confidence_min, confidence_max in Hv. intuition lia.
  - cbn. destruct (userDirection s); [|discriminate]. intuition congruence.
  - cbn. intuition congruence.
  - cbn. intuition (try congruence; try lia).
  - rewrite handleRandomizeOutcome_flip. cbn. auto.
  - apply commitDisabled_false in Hs as (_ & Hi & _). cbn.
    intuition congruence.
  - cbn. intuition.
  - cbn. auto.
  - cbn. intuition.
  - cbn. intuition.
  - cbn. intuition.
Qed.

Lemma initialState_consistent : consistent initialState.
Proof.
  unfold consistent; cbn.
  intuition (try lia; try congruence).
Qed.

Lemma run_consistent (script : list Action) (w : World) :
  run Math_random encodePacked keccak256 script boot = Some w ->
  consistent (ui w).
Proof.
  intros H. apply run_steps in H. change (ui boot) with initialState in H.
  refine (rtc_ind_r consistent initialState initialState_consistent _ _ H).
  intros y z _ Hstep IH. exact (Step_consistent y z IH Hstep).
Qed.

(** X1. However the page is operated, the confidence it holds stays
    between 0 and 100. *)
Theorem confidence_in_range (script : list Action) (w : World)
    (Hrun : run Math_random encodePacked keccak256 script boot = Some w) :
  0 <= userConfidence (ui w) <= 100.
Proof. exact (proj1 (run_consistent script w Hrun)). Qed.

(** X2. A locked decision has a direction, and its timer is off. *)
Theorem locked_has_direction (script : list Action) (w : World)
    (Hrun : run Math_random encodePacked keccak256 script boot = Some w)
    (Hlocked : isLocked (ui w) = true) :
  userDirection (ui w) <> None /\ timerActive (ui w) = false.
Proof.
  destruct (run_consistent script w Hrun) as (_ & Hl & _).
  exact (Hl Hlocked).
Qed.

(** X3. A commitment is on the page only for a decision that is locked,
    has a direction and has had its outcome shown: the commit button cannot
    be enabled earlier, the commitment never stands for the ['NONE']
    placeholder, and the feedback is on the page with it. *)
Theorem commitment_after_reveal (script : list Action) (w : World)
    (Hrun : run Math_random encodePacked keccak256 script boot = Some w)
    (Hcommit : commitmentHash (ui w) <> "") :
  isLocked (ui w) = true
  /\ showOutcome (ui w) = true
  /\ userDirection (ui w) <> None
  /\ getCoachFeedback (ui w) <> null.
Proof.
  destruct (run_consistent script w Hrun) as (_ & Hl & Hh & _).
  destruct (Hh Hcommit) as [Hlocked Hshown].
  destruct (Hl Hlocked) as [Hd _].
  repeat split; try assumption.
  rewrite getCoachFeedback_resolve, Hshown.
  destruct (userDirection (ui w)); [discriminate|contradiction].
Qed.

(** X4. The transaction link is on the page only while the submission is
    confirmed. *)
Theorem transaction_shown_confirmed (script : list Action) (w : World)
    (Hrun : run Math_random encodePacked keccak256 script boot = Some w)
    (Hshown : transactionShown (ui w) = true) :
  txStatus (ui w) = confirmed.
Proof.
  destruct (run_consistent script w Hrun) as (_ & _ & _ & Ht & _).
  apply Ht. unfold transactionShown in Hshown.
  destruct (txHash (ui w)); [discriminate|discriminate].
Qed.

(** *** A pending submission is waited for *)

Lemma existsb_delete {A : Type} (f : A -> bool) (l : list A) (i : nat) (t : A) :
  existsb f l = true -> l !! i = Some t -> f t = false ->
  existsb f (delete i l) = true.
Proof.
  revert i. induction l as [|x l IH]; intros i Hex Hi Hf; [discriminate|].
  destruct i as [|i]; cbn in *.
  - injection Hi as ->. rewrite Hf in Hex. exact Hex.
  - destruct (f x); [reflexivity|]. exact (IH i Hex Hi Hf).
Qed.

Lemma pending_setTimeout (cb : Callback) (d : Z) (w : World) :
  (txStatus (ui w) = pending -> existsb isResume (timeouts w) = true) ->
  txStatus (ui w) = pending ->
  existsb isResume (timeouts (setTimeout cb d w)) = true.
Proof.
  intros H Hp. cbn [setTimeout timeouts]. rewrite existsb_app, (H Hp).
  reflexivity.
Qed.

Lemma timerEffect_pending (w : World) :
  (txStatus (ui w) = pending -> existsb isResume (timeouts w) = true) ->
  txStatus (ui (timerEffect w)) = pending ->
  existsb isResume (timeouts (timerEffect w)) = true.
Proof.
  intros Hw. unfold timerEffect.
  destruct (negb (timerActive (ui w)) || isLocked (ui w)); [exact Hw|].
  destruct (timeRemaining (ui w) <=? 0); [|exact Hw].
  destruct (truthy_direction (userDirection (ui w))) eqn:Hd; [|exact Hw].
  rewrite handleLockIn_unfold, Hd.
  intros Hp. apply pending_setTimeout; [exact Hw|exact Hp].
Qed.

Lemma perform_pending (a : Action) (w w' : World) :
  (txStatus (ui w) = pending -> existsb isResume (timeouts w) = true) ->
  perform Math_random encodePacked keccak256 a w = Some w' ->
  txStatus (ui w') = pending -> existsb isResume (timeouts w') = true.
Proof.
  intros Hw H. apply perform_cases in H.
  destruct H as [[e ->]|[[ms ->]|[(i & t & Ht & _ & ->)|[->|[->|[_ ->]]]]]].
  - unfold dispatch. destruct (enabled e (ui w)); [|exact Hw].
    destruct e; cbn [handler].
    + exact Hw.
    + unfold handleConnectWallet; cbn [onUi ui timeouts].
      destruct (demoMode (ui w)); exact Hw.
    + unfold onClickDirection; cbn [onUi ui timeouts].
      destruct (isLocked (ui w)); exact Hw.
    + unfold onChangeConfidence; cbn [onUi ui timeouts].
      destruct (isLocked (ui w)); exact Hw.
    + rewrite handleLockIn_unfold.
      destruct (truthy_direction (userDirection (ui w))); [|exact Hw].
      intros Hp. apply pending_setTimeout; [exact Hw|exact Hp].
    + cbn. discriminate.
    + cbn [onUi ui timeouts]. rewrite handleRandomizeOutcome_flip. exact Hw.
    + rewrite handleCommitProof_unfold.
      destruct (truthy_string (commitmentHash (ui w))); [|exact Hw].
      intros _. cbn [setTimeout timeouts onUi]. rewrite existsb_app.
      cbn. apply orb_true_r.
  - exact Hw.
  - unfold isResume in *. destruct (callback t) as [|[|]] eqn:Hcb; cbn.
    + intros Hp. apply (existsb_delete _ _ i t (Hw Hp) Ht).
      unfold isResume. rewrite Hcb. reflexivity.
    + discriminate.
    + discriminate.
  - apply timerEffect_pending. exact Hw.
  - unfold commitmentEffect.
    destruct (isLocked (ui w) && showOutcome (ui w)); exact Hw.
  - unfold countdown. destruct (interval w); [|exact Hw].
    apply timerEffect_pending. exact Hw.
Qed.

(** X5. While a submission is pending, its continuation is in the queue: a
    pending status is never left without the callback that confirms it. *)
Theorem pending_is_awaited (script : list Action) (w : World)
    (Hrun : run Math_random encodePacked keccak256 script boot = Some w)
    (Hpending : txStatus (ui w) = pending) :
  exists (i : nat) (t : Timeout),
    timeouts w !! i = Some t /\ isResume t = true.
Proof.
  assert (H : existsb isResume (timeouts w) = true).
  { revert Hpending.
    refine (run_invariant
              (fun w => txStatus (ui w) = pending ->
                        existsb isResume (timeouts w) = true)
              _ script boot w _ Hrun).
    - intros a w1 w2 H1 H2. exact (perform_pending a w1 w2 H1 H2).
    - discriminate. }
  apply existsb_exists in H as (t & Hin & Ht).
  apply list_elem_of_In, list_elem_of_lookup in Hin as [i Hi].
  exists i, t. split; assumption.
Qed.

(** *** A locked decision *)

(** X6. Once the decision is locked, nothing but the reset button unlocks
    it or changes its direction or its confidence. *)
Theorem locked_decision_frozen (a : Action) (w w' : World)
    (Hlocked : isLocked (ui w) = true)
    (Hnot_reset : a <> User ClickReset)
    (Hstep : perform Math_random encodePacked keccak256 a w = Some w') :
  isLocked (ui w') = true
  /\ userDirection (ui w') = userDirection (ui w)
  /\ userConfidence (ui w') = userConfidence (ui w)
  /\ timerActive (ui w') = timerActive (ui w).
Proof.
  destruct a as [e|ms|i| | |]; cbn [perform] in Hstep.
  - injection Hstep as <-. unfold dispatch.
    destruct (enabled e (ui w)) eqn:He; [|tauto].
    destruct e; cbn [enabled] in He; cbn [handler onUi ui];
      try (rewrite Hlocked in He; discriminate He).
    + cbn. tauto.
    + unfold handleConnectWallet. destruct (demoMode (ui w)); cbn; tauto.
    + contradiction.
    + rewrite handleRandomizeOutcome_flip. cbn. tauto.
    + rewrite handleCommitProof_unfold.
      destruct (truthy_string (commitmentHash (ui w))); cbn; tauto.
  - destruct (0 <=? ms); [|discriminate]. injection Hstep as <-. cbn. tauto.
  - unfold runTimeout in Hstep.
    destruct (timeouts w !! i) as [t|]; [|discriminate].
    destruct (due t <=? now w); [|discriminate]. injection Hstep as <-.
    destruct (callback t) as [|[|]]; cbn; tauto.
  - injection Hstep as <-.
    rewrite timerEffect_stopped by (right; exact Hlocked). cbn. tauto.
  - injection Hstep as <-. unfold commitmentEffect.
    destruct (isLocked (ui w) && showOutcome (ui w)); cbn; tauto.
  - destruct (interval w); [|discriminate]. injection Hstep as <-.
    unfold countdown; cbn [interval].
    destruct (interval w);
      [rewrite timerEffect_stopped by (right; exact Hlocked)|]; cbn; tauto.
Qed.

End Runs.

Lemma confidence_in_range_witness :
  run Demo.random Viem.encodePacked Viem.keccak256
    Tour.restartScript boot = Some Tour.restarted
  /\ 0 <= userConfidence (ui Tour.restarted) <= 100.
Proof.
  assert (Hrun : run Demo.random Viem.encodePacked Viem.keccak256
                    Tour.restartScript boot = Some Tour.restarted)
    by (vm_compute; reflexivity).
  split; [exact Hrun|].
  exact (confidence_in_range Demo.random Viem.encodePacked Viem.keccak256
           Tour.restartScript Tour.restarted Hrun).
Defined.

Lemma locked_has_direction_witness :
  run Demo.random Viem.encodePacked Viem.keccak256
    Demo.lockScript boot = Some Demo.locked
  /\ isLocked (ui Demo.locked) = true
  /\ userDirection (ui Demo.locked) <> None.
Proof.
  assert (Hrun : run Demo.random Viem.encodePacked Viem.keccak256
                    Demo.lockScript boot = Some Demo.locked)
    by (vm_compute; reflexivity).
  split; [exact Hrun|]. split; [reflexivity|].
  apply (locked_has_direction Demo.random Viem.encodePacked Viem.keccak256
           Demo.lockScript Demo.locked Hrun eq_refl).
Defined.

Lemma commitment_after_reveal_witness :
  run Demo.random Viem.encodePacked Viem.keccak256
    Tour.fullScript boot = Some Demo.committed
  /\ commitmentHash (ui Demo.committed) <> ""
  /\ getCoachFeedback (ui Demo.committed) <> null.
Proof.
  assert (Hrun : run Demo.random Viem.encodePacked Viem.keccak256
                    Tour.fullScript boot = Some Demo.committed)
    by (vm_compute; reflexivity).
  assert (Hc : commitmentHash (ui Demo.committed) <> "") by discriminate.
  split; [exact Hrun|]. split; [exact Hc|].
  apply (commitment_after_reveal Demo.random Viem.encodePacked Viem.keccak256
           Tour.fullScript Demo.committed Hrun Hc).
Defined.

Lemma transaction_shown_confirmed_witness :
  run Demo.random Viem.encodePacked Viem.keccak256
    Tour.fullScript boot = Some Demo.committed
  /\ transactionShown (ui Demo.committed) = true
  /\ txStatus (ui Demo.committed) = confirmed.
Proof.
  assert (Hrun : run Demo.random Viem.encodePacked Viem.keccak256
                    Tour.fullScript boot = Some Demo.committed)
    by (vm_compute; reflexivity).
  split; [exact Hrun|]. split; [reflexivity|].
  apply (transaction_shown_confirmed Demo.random Viem.encodePacked
           Viem.keccak256 Tour.fullScript Demo.committed Hrun eq_refl).
Defined.

Lemma locked_decision_frozen_witness :
  isLocked (ui Demo.locked) = true
  /\ User (ClickDirection DOWN) <> User ClickReset
  /\ userDirection (ui (dispatch (ClickDirection DOWN) Demo.locked)) = Some UP.
Proof.
  assert (Hne : User (ClickDirection DOWN) <> User ClickReset) by discriminate.
  split; [reflexivity|]. split; [exact Hne|].
  apply (locked_decision_frozen Demo.random Viem.encodePacked Viem.keccak256
           (User (ClickDirection DOWN)) Demo.locked _ eq_refl Hne eq_refl).
Defined.

(** ** Submitting outside demo mode *)

Lemma commitDisabled_live (s : State) :
  demoMode s = false -> commitmentHash s <> "" -> txStatus s = idle ->
  commitDisabled s = negb (walletConnected s)
  /\ truthy_string (commitmentHash s) = true.
Proof.
  intros Hd Hc Hi. unfold commitDisabled. rewrite Hd, Hi.
  destruct (commitmentHash s); [contradiction|].
  destruct (walletConnected s); split; reflexivity.
Qed.

(** X7. Outside demo mode the commit button does nothing until a wallet is
    connected.  With a wallet, a submission is confirmed 2000 ms later like
    a demo one, but no transaction identifier is made: [txHash] keeps its
    value and no random number is drawn, so no transaction link appears. *)
Theorem live_submit (R : nat -> Q) (w : World) (ms : Z)
    (Hlive : demoMode (ui w) = false)
    (Hcommit : commitmentHash (ui w) <> "")
    (Hidle : txStatus (ui w) = idle) :
  match walletConnected (ui w) with
  | false => dispatch ClickCommit w = w
  | true =>
      let w1 := dispatch ClickCommit w in
      let w2 :=
        onUi (setTxStatus confirmed)
          (advance ms (onUi (setTxStatus pending) w)) in
      txStatus (ui w1) = pending
      /\ runTimeout R (length (timeouts w)) (advance ms w1) =
         (if 2000 <=? ms then Some w2 else None)
      /\ txStatus (ui w2) = confirmed
      /\ txHash (ui w2) = txHash (ui w)
      /\ transactionShown (ui w2) = transactionShown (ui w)
      /\ randomCalls w2 = randomCalls w
  end.
Proof.
  destruct (commitDisabled_live (ui w) Hlive Hcommit Hidle) as [Hdis Htr].
  unfold dispatch; cbn [enabled handler]. rewrite Hdis.
  destruct (walletConnected (ui w)); cbn [negb]; [|reflexivity].
  rewrite handleCommitProof_unfold, Htr, Hlive.
  split; [reflexivity|].
  split.
  { change (length (timeouts w))
      with (length (timeouts (onUi (setTxStatus pending) w))).
    rewrite runTimeout_setTimeout. reflexivity. }
  repeat split.
Qed.

Lemma live_submit_witness :
  demoMode (ui (onUi handleConnectWallet Demo.revealed)) = false
  /\ commitmentHash (ui (onUi handleConnectWallet Demo.revealed)) <> ""
  /\ txStatus (ui (onUi handleConnectWallet Demo.revealed)) = idle
  /\ txStatus (ui (dispatch ClickCommit
                    (onUi handleConnectWallet Demo.revealed))) = pending.
Proof.
  assert (Hc : commitmentHash (ui (onUi handleConnectWallet Demo.revealed)) <> "")
    by discriminate.
  split; [reflexivity|]. split; [exact Hc|]. split; [reflexivity|].
  apply (live_submit Demo.random (onUi handleConnectWallet Demo.revealed) 2000
           eq_refl Hc eq_refl).
Defined.

Lemma commitmentEffect_setTimeout
    (encodePacked : list AbiType -> list AbiValue -> Completion string)
    (keccak256 : string -> Completion string)
    (cb : Callback) (d : Z) (w : World) :
  commitmentEffect encodePacked keccak256 (setTimeout cb d w) =
  setTimeout cb d (commitmentEffect encodePacked keccak256 w).
Proof.
  unfold commitmentEffect; cbn [setTimeout ui now].
  destruct (isLocked (ui w) && showOutcome (ui w)); reflexivity.
Qed.

Lemma commitmentEffect_frame
    (encodePacked : list AbiType -> list AbiValue -> Completion string)
    (keccak256 : string -> Completion string) (w : World) :
  let w' := commitmentEffect encodePacked keccak256 w in
  timeouts w' = timeouts w /\ now w' = now w
  /\ randomCalls w' = randomCalls w
  /\ demoMode (ui w') = demoMode (ui w)
  /\ txStatus (ui w') = txStatus (ui w)
  /\ txHash (ui w') = txHash (ui w).
Proof.
  cbv zeta. unfold commitmentEffect.
  destruct (isLocked (ui w) && showOutcome (ui w)); repeat split.
Qed.

(** X8. Which branch the continuation of a submission takes is settled
    when the button is pressed.  Switching demo mode while the submission
    is pending changes the mode shown and, [demoMode] being a dependency of
    [computeCommitment], makes the commitment effect run again, which
    replaces the commitment of a locked and revealed decision by one for
    the other actor; it does not change the submission, which ends
    confirmed, with a made-up transaction identifier if and only if it
    began in demo mode. *)
Theorem submit_keeps_mode (R : nat -> Q)
    (encodePacked : list AbiType -> list AbiValue -> Completion string)
    (keccak256 : string -> Completion string)
    (w : World) (ms : Z)
    (Henabled : commitDisabled (ui w) = false)
    (Hdue : 2000 <= ms) :
  let toggled := onUi onClickDemoMode (onUi (setTxStatus pending) w) in
  let w1 :=
    commitmentEffect encodePacked keccak256
      (dispatch ClickDemoMode (dispatch ClickCommit w)) in
  let w2 :=
    fire R (ResumeCommitProof (demoMode (ui w)))
      (advance ms (commitmentEffect encodePacked keccak256 toggled)) in
  runTimeout R (length (timeouts w)) (advance ms w1) = Some w2
  /\ demoMode (ui w2) = negb (demoMode (ui w))
  /\ txStatus (ui w2) = confirmed
  /\ txHash (ui w2) =
     (if demoMode (ui w) then fakeTxHash R (randomCalls w) else txHash (ui w))
  /\ commitmentHash (ui w2) =
     (if isLocked (ui w) && showOutcome (ui w)
      then computeCommitment encodePacked keccak256 (ui toggled) (now w)
      else commitmentHash (ui w)).
Proof.
  assert (Htr : truthy_string (commitmentHash (ui w)) = true).
  { unfold commitDisabled in Henabled.
    destruct (truthy_string (commitmentHash (ui w))); [reflexivity|discriminate]. }
  cbv zeta.
  set (toggled := onUi onClickDemoMode (onUi (setTxStatus pending) w)).
  destruct (commitmentEffect_frame encodePacked keccak256 toggled)
    as (Hq & Hn & Hr & Hd & Hs & Hh).
  split.
  - unfold dispatch at 2; cbn [enabled handler]. rewrite Henabled; cbn [negb].
    rewrite handleCommitProof_unfold, Htr.
    change (dispatch ClickDemoMode
              (setTimeout (ResumeCommitProof (demoMode (ui w))) 2000
                 (onUi (setTxStatus pending) w)))
      with (setTimeout (ResumeCommitProof (demoMode (ui w))) 2000 toggled).
    rewrite commitmentEffect_setTimeout.
    replace (length (timeouts w))
      with (length (timeouts (commitmentEffect encodePacked keccak256 toggled)))
      by (rewrite Hq; reflexivity).
    rewrite runTimeout_setTimeout.
    apply Z.leb_le in Hdue. rewrite Hdue. reflexivity.
  - assert (Hc : commitmentHash
                   (ui (commitmentEffect encodePacked keccak256 toggled)) =
                 (if isLocked (ui w) && showOutcome (ui w)
                  then computeCommitment encodePacked keccak256 (ui toggled) (now w)
                  else commitmentHash (ui w)))
      by (rewrite commitmentEffect_unfold; reflexivity).
    destruct (demoMode (ui w)) eqn:Hdm;
      cbn [fire onUi ui drawn advance demoMode txStatus txHash commitmentHash
           setTxStatus setTxHash randomCalls];
      rewrite ?Hd, ?Hh, ?Hr, ?Hc; cbn; rewrite ?Hdm; repeat split.
Qed.

Lemma submit_keeps_mode_witness :
  commitDisabled (ui Demo.revealed) = false
  /\ 2000 <= 2500
  /\ runTimeout Demo.random 0
       (advance 2500
          (commitmentEffect Viem.encodePacked Viem.keccak256
             (dispatch ClickDemoMode (dispatch ClickCommit Demo.revealed))))
     = Some
         (fire Demo.random (ResumeCommitProof true)
            (advance 2500
               (commitmentEffect Viem.encodePacked Viem.keccak256
                  (onUi onClickDemoMode
                     (onUi (setTxStatus pending) Demo.revealed))))).
Proof.
  assert (Hd : 2000 <= 2500) by lia.
  split; [reflexivity|]. split; [exact Hd|].
  apply (submit_keeps_mode Demo.random Viem.encodePacked Viem.keccak256
           Demo.revealed 2500 eq_refl Hd).
Defined.

(** In the session of the demonstration the commitment on the page after
    the switch is no longer the one that was on it when the button was
    pressed. *)
Example submit_keeps_mode_commitment :
  commitmentHash
    (ui (commitmentEffect Viem.encodePacked Viem.keccak256
           (dispatch ClickDemoMode (dispatch ClickCommit Demo.revealed))))
  <> commitmentHash (ui Demo.revealed).
Proof. vm_compute. discriminate. Qed.

(** ** Feedback and the outcome badge *)

(** X13. The key [getCoachFeedback] builds is always in the table (it never
    returns [undefined]); the feedback it returns is a "correct" payload
    exactly when the badge computed by [isCorrect] says so; and toggling the
    outcome swaps the feedback for the other payload of the same
    agreement. *)
Theorem feedback_matches_badge (s : State) :
  getCoachFeedback s <> undefined
  /\ getCoachFeedback s =
     (if showOutcome s && truthy_direction (userDirection s)
      then value (payload (userDirection_is (userDirection s) UP) (isCorrect s))
      else null)
  /\ isCorrect (handleRandomizeOutcome s) =
     truthy_direction (userDirection s) && negb (isCorrect s)
  /\ getCoachFeedback (handleRandomizeOutcome s) =
     (if showOutcome s && truthy_direction (userDirection s)
      then value (payload (userDirection_is (userDirection s) UP)
                          (negb (isCorrect s)))
      else null).
Proof.
  rewrite handleRandomizeOutcome_flip.
  rewrite !getCoachFeedback_resolve. unfold isCorrect, resolveFeedback.
  cbn [showOutcome userDirection outcome setOutcome direction mockAIAnalysis].
  destruct (showOutcome s), (userDirection s) as [[]|], (outcome s);
    cbn; repeat split; discriminate.
Qed.

(** ** Connecting the wallet *)

(** X9. [handleConnectWallet] leaves demo mode, marks the wallet connected
    under the placeholder address and changes no other cell; doing it again
    changes nothing.  From then on the commit button depends on the
    commitment and the status alone, and the actor packed into the
    commitment is the wallet address. *)
Theorem handleConnectWallet_spec (s : State) (t : Z) :
  let s' := handleConnectWallet s in
  demoMode s' = false
  /\ walletConnected s' = true
  /\ walletAddress s' = "0x1234...5678"
  /\ setWalletAddress (walletAddress s)
       (setWalletConnected (walletConnected s)
         (setDemoMode (demoMode s) s')) = s
  /\ handleConnectWallet s' = s'
  /\ commitDisabled s' =
     negb (truthy_string (commitmentHash s))
     || TxStatus_eqb (txStatus s) pending
     || TxStatus_eqb (txStatus s) confirmed
  /\ hd_error (commitmentValues s' t) = Some (abi_str "0x1234...5678").
Proof.
  unfold handleConnectWallet, commitDisabled, commitmentValues.
  destruct s as [dm wc wa ud uc il tr ta sw oc so ch ts th].
  destruct dm; cbn; rewrite ?orb_false_r; repeat split.
Qed.

(** ** After the time is up *)

(** X12. A session whose timer stopped without a lock is not stuck: a
    direction can still be chosen, which removes the time warning and does
    not lock by itself nor restart the countdown, and the lock-in button
    then locks the decision and schedules the reveal. *)
Theorem expired_can_still_lock (w : World) (d : Direction)
    (Hstopped : timerActive (ui w) = false)
    (Hunlocked : isLocked (ui w) = false) :
  let w1 := render (dispatch (ClickDirection d) w) in
  let w2 := dispatch ClickLockIn w1 in
  userDirection (ui w1) = Some d
  /\ isLocked (ui w1) = false
  /\ interval w1 = false
  /\ timeWarningShown (ui w1) = false
  /\ isLocked (ui w2) = true
  /\ timeouts w2 =
     (timeouts w ++ [ {| due := now w + 800; callback := RevealOutcome |} ])%list.
Proof.
  cbv zeta. unfold render.
  assert (H1 : dispatch (ClickDirection d) w = onUi (setUserDirection (Some d)) w).
  { unfold dispatch; cbn [enabled handler]. rewrite Hunlocked; cbn [negb].
    unfold onUi, onClickDirection. rewrite Hunlocked. reflexivity. }
  rewrite H1.
  rewrite timerEffect_stopped by (left; exact Hstopped).
  unfold dispatch; cbn [enabled timerCleanup clearInterval onUi ui
                          setUserDirection isLocked userDirection].
  rewrite Hunlocked; cbn [negb truthy_direction andb handler].
  rewrite handleLockIn_unfold. cbn.
  unfold timeWarningShown; cbn. rewrite andb_false_r.
  repeat split; try exact Hunlocked.
Qed.

Lemma expired_can_still_lock_witness :
  timerActive (ui (timerEffect Demo.expiring)) = false
  /\ isLocked (ui (timerEffect Demo.expiring)) = false
  /\ isLocked (ui (dispatch ClickLockIn
        (render (dispatch (ClickDirection UP) (timerEffect Demo.expiring)))))
     = true.
Proof.
  split; [reflexivity|]. split; [reflexivity|].
  apply (expired_can_still_lock (timerEffect Demo.expiring) UP eq_refl eq_refl).
Defined.

(** ** Callbacks that outlive their session *)

(** X14. Reset cancels nothing.  A callback scheduled before it is still in
    the queue after it and fires when due: a late reveal shows the outcome
    of a session that is not locked and has no direction (so no feedback
    comes with it), and a late confirmation marks as confirmed a session
    that has no commitment to commit. *)
Theorem reset_cancels_nothing (R : nat -> Q) (w : World) (i : nat) (t : Timeout)
    (Hlocked : isLocked (ui w) = true)
    (Hqueued : timeouts w !! i = Some t)
    (Hdue : due t <= now w) :
  let w0 := dispatch ClickReset w in
  let w' := fire R (callback t) (dequeue i w0) in
  timeouts w0 = timeouts w
  /\ runTimeout R i w0 = Some w'
  /\ isLocked (ui w') = false
  /\ userDirection (ui w') = None
  /\ commitmentHash (ui w') = ""
  /\ match callback t with
     | RevealOutcome =>
         showOutcome (ui w') = true /\ getCoachFeedback (ui w') = null
     | ResumeCommitProof _ =>
         txStatus (ui w') = confirmed /\ commitDisabled (ui w') = true
     end.
Proof.
  cbv zeta.
  assert (H0 : dispatch ClickReset w = onUi resetDemo w)
    by (unfold dispatch; cbn [enabled handler]; rewrite Hlocked; reflexivity).
  rewrite H0. split; [reflexivity|].
  split.
  { unfold runTimeout. cbn [onUi timeouts now]. rewrite Hqueued.
    apply Z.leb_le in Hdue. rewrite Hdue. reflexivity. }
  destruct (callback t) as [|[|]]; cbn; repeat split.
Qed.

Lemma reset_cancels_nothing_witness :
  isLocked (ui (advance 800 Demo.locked)) = true
  /\ timeouts (advance 800 Demo.locked) !! 0%nat =
     Some {| due := 5800; callback := RevealOutcome |}
  /\ 5800 <= now (advance 800 Demo.locked)
  /\ showOutcome
       (ui (fire Demo.random RevealOutcome
              (dequeue 0 (dispatch ClickReset (advance 800 Demo.locked)))))
     = true.
Proof.
  assert (Hd : 5800 <= now (advance 800 Demo.locked)) by (cbn; lia).
  split; [reflexivity|]. split; [reflexivity|]. split; [exact Hd|].
  apply (reset_cancels_nothing Demo.random (advance 800 Demo.locked) 0
           {| due := 5800; callback := RevealOutcome |} eq_refl eq_refl Hd).
Defined.

(** ** From the reveal to the commit button *)

Lemma isHexDigest_nonempty (h : string) :
  isHexDigest h = true -> truthy_string h = true.
Proof. destruct h; [discriminate|reflexivity]. Qed.

(** X15. When the commitment effect runs on a locked decision whose outcome
    is shown, it stores the commitment just computed, and with the
    submission idle in demo mode or with a wallet connected the commit
    button becomes enabled and a click starts the submission.  This is so
    also when the encoding throws: the all-zero digest is stored and can be
    submitted like any other. *)
Theorem commitment_enables_commit
    (encodePacked : list AbiType -> list AbiValue -> Completion string)
    (keccak256 : string -> Completion string)
    (Hkeccak : forall x h, keccak256 x = Normal h -> isHexDigest h = true)
    (w : World)
    (Hlocked : isLocked (ui w) = true)
    (Hshown : showOutcome (ui w) = true)
    (Hidle : txStatus (ui w) = idle)
    (Hmode : demoMode (ui w) || walletConnected (ui w) = true) :
  let w' := commitmentEffect encodePacked keccak256 w in
  commitmentHash (ui w') =
    match encodePacked commitmentTypes (commitmentValues (ui w) (now w)) with
    | Normal packed =>
        match keccak256 packed with
        | Normal hash => hash
        | Throw => zeroDigest
        end
    | Throw => zeroDigest
    end
  /\ isHexDigest (commitmentHash (ui w')) = true
  /\ commitDisabled (ui w') = false
  /\ txStatus (ui (dispatch ClickCommit w')) = pending.
Proof.
  cbv zeta. unfold commitmentEffect. rewrite Hlocked, Hshown. cbn [andb].
  cbn [onUi ui commitmentHash setCommitmentHash].
  assert (Hd : isHexDigest
                 (computeCommitment encodePacked keccak256 (ui w) (now w)) = true).
  { rewrite computeCommitment_unfold.
    destruct (encodePacked _ _) as [packed|]; [|exact zeroDigest_digest].
    destruct (keccak256 packed) as [hash|] eqn:Hk; [|exact zeroDigest_digest].
    exact (Hkeccak packed hash Hk). }
  assert (Hen : commitDisabled
                  (setCommitmentHash
                     (computeCommitment encodePacked keccak256 (ui w) (now w))
                     (ui w)) = false).
  { unfold commitDisabled. cbn. rewrite (isHexDigest_nonempty _ Hd), Hidle.
    destruct (demoMode (ui w)), (walletConnected (ui w));
      try reflexivity; discriminate Hmode. }
  split; [apply computeCommitment_unfold|].
  split; [exact Hd|]. split; [exact Hen|].
  unfold dispatch; cbn [enabled handler ui onUi]. rewrite Hen; cbn [negb].
  rewrite handleCommitProof_unfold. cbn [ui onUi commitmentHash setCommitmentHash].
  rewrite (isHexDigest_nonempty _ Hd). reflexivity.
Qed.

Lemma commitment_enables_commit_witness :
  isLocked (ui Demo.revealed) = true
  /\ showOutcome (ui Demo.revealed) = true
  /\ txStatus (ui Demo.revealed) = idle
  /\ demoMode (ui Demo.revealed) || walletConnected (ui Demo.revealed) = true
  /\ commitDisabled
       (ui (commitmentEffect Viem.encodePacked Viem.keccak256 Demo.revealed))
     = false.
Proof.
  split; [reflexivity|]. split; [reflexivity|]. split; [reflexivity|].
  split; [reflexivity|].
  apply (commitment_enables_commit Viem.encodePacked Viem.keccak256
           Viem_keccak256_digest Demo.revealed eq_refl eq_refl eq_refl eq_refl).
Defined.

(** X17. [computeCommitment] reads the five cells its [useCallback] lists as
    dependencies, and the clock to the second, and nothing else: two states
    that agree on them give the same commitment within the same second. *)
Theorem computeCommitment_dependencies
    (encodePacked : list AbiType -> list AbiValue -> Completion string)
    (keccak256 : string -> Completion string)
    (s s' : State) (t t' : Z)
    (Hdemo : demoMode s = demoMode s')
    (Hwallet : walletAddress s = walletAddress s')
    (Hdirection : userDirection s = userDirection s')
    (Hconfidence : userConfidence s = userConfidence s')
    (Houtcome : outcome s = outcome s')
    (Hsecond : t / 1000 = t' / 1000) :
  computeCommitment encodePacked keccak256 s t =
  computeCommitment encodePacked keccak256 s' t'.
Proof.
  rewrite !computeCommitment_unfold. unfold commitmentValues.
  rewrite Hdemo, Hwallet, Hdirection, Hconfidence, Houtcome, Hsecond.
  reflexivity.
Qed.

Lemma computeCommitment_dependencies_witness :
  5800 / 1000 = 5999 / 1000
  /\ computeCommitment Viem.encodePacked Viem.keccak256 (ui Demo.revealed) 5800
     = computeCommitment Viem.encodePacked Viem.keccak256
         (ui Demo.committed) 5999.
Proof.
  assert (Hs : 5800 / 1000 = 5999 / 1000) by reflexivity.
  split; [exact Hs|].
  apply (computeCommitment_dependencies Viem.encodePacked Viem.keccak256
           (ui Demo.revealed) (ui Demo.committed) 5800 5999
           eq_refl eq_refl eq_refl eq_refl eq_refl Hs).
Defined.

(** ** The timer effect, run again *)

Lemma timerCleanup_idempotent (w : World) :
  timerCleanup (timerCleanup w) = timerCleanup w.
Proof. reflexivity. Qed.

Lemma timerEffect_timeRemaining (w : World) :
  timeRemaining (ui (timerEffect w)) = timeRemaining (ui w).
Proof.
  unfold timerEffect.
  destruct (negb (timerActive (ui w)) || isLocked (ui w)); [reflexivity|].
  destruct (timeRemaining (ui w) <=? 0); [|reflexivity].
  rewrite handleLockIn_unfold.
  destruct (truthy_direction (userDirection (ui w))); reflexivity.
Qed.

Lemma render_timeRemaining (w : World) :
  timeRemaining (ui (render w)) = timeRemaining (ui w).
Proof. unfold render. rewrite timerEffect_timeRemaining. reflexivity. Qed.

Lemma timerEffect_interval (w : World) :
  interval w = false ->
  interval (timerEffect w) =
  timerActive (ui (timerEffect w)) && negb (isLocked (ui (timerEffect w)))
  && (0 <? timeRemaining (ui (timerEffect w))).
Proof.
  intros Hi. rewrite timerEffect_timeRemaining. unfold timerEffect.
  destruct (timerActive (ui w)) eqn:Ha; cbn [negb orb];
    [|rewrite Ha; exact Hi].
  destruct (isLocked (ui w)) eqn:Hl; [rewrite Ha, Hl; exact Hi|].
  destruct (timeRemaining (ui w) <=? 0) eqn:Ht.
  - rewrite handleLockIn_unfold.
    destruct (truthy_direction (userDirection (ui w))); cbn; exact Hi.
  - cbn. rewrite Ha, Hl. apply Z.leb_gt in Ht.
    symmetry. apply Z.ltb_lt in Ht. rewrite Ht. reflexivity.
Qed.

(** After a render the interval is live exactly when the timer is active,
    the decision not locked and time left. *)
Lemma render_interval (w : World) :
  interval (render w) =
  timerActive (ui (render w)) && negb (isLocked (ui (render w)))
  && (0 <? timeRemaining (ui (render w))).
Proof. unfold render. apply timerEffect_interval. reflexivity. Qed.

(** X16. Running the timer effect again when nothing changed changes
    nothing: a render that follows a render leaves the page as it is. *)
Theorem render_idempotent (w : World) : render (render w) = render w.
Proof.
  unfold render.
  destruct (timerActive (ui w)) eqn:Ha.
  2:{ rewrite (timerEffect_stopped (timerCleanup w)) by (left; exact Ha).
      rewrite timerCleanup_idempotent.
      apply timerEffect_stopped. left; exact Ha. }
  destruct (isLocked (ui w)) eqn:Hl.
  { rewrite (timerEffect_stopped (timerCleanup w)) by (right; exact Hl).
    rewrite timerCleanup_idempotent.
    apply timerEffect_stopped. right; exact Hl. }
  destruct (Z.leb_spec (timeRemaining (ui w)) 0) as [Ht|Ht].
  - rewrite (timerEffect_zero (timerCleanup w)) by assumption.
    cbn [timerCleanup clearInterval ui].
    destruct (userDirection (ui w)) as [d|] eqn:Hd; cbn [truthy_direction].
    + rewrite handleLockIn_unfold; cbn [ui clearInterval timerCleanup].
      rewrite Hd; cbn [truthy_direction].
      apply timerEffect_stopped. right; reflexivity.
    + apply timerEffect_stopped. left; reflexivity.
  - rewrite (timerEffect_live (timerCleanup w)) by assumption.
    change (timerCleanup (setInterval (timerCleanup w))) with (timerCleanup w).
    apply timerEffect_live; assumption.
Qed.

(** ** The countdown on the page *)

Section Sessions.

Variable Math_random : nat -> Q.
Variable encodePacked : list AbiType -> list AbiValue -> Completion string.
Variable keccak256 : string -> Completion string.

Lemma session_invariant (P : World -> Prop) :
  (forall a w w', P w -> react Math_random encodePacked keccak256 a w = Some w' ->
                  P w') ->
  forall script w w',
    P w -> session Math_random encodePacked keccak256 script w = Some w' -> P w'.
Proof.
  intros Hstep. induction script as [|a script IH]; intros w w' Hw Hrun.
  - injection Hrun as <-. exact Hw.
  - cbn [session] in Hrun.
    destruct (react Math_random encodePacked keccak256 a w) as [w1|] eqn:Ha;
      [|discriminate].
    exact (IH w1 w' (Hstep a w w1 Hw Ha) Hrun).
Qed.

Lemma dispatch_timeRemaining (e : Event) (w : World) :
  timeRemaining (ui (dispatch e w)) = timeRemaining (ui w)
  \/ timeRemaining (ui (dispatch e w)) = 30.
Proof.
  unfold dispatch. destruct (enabled e (ui w)); [|left; reflexivity].
  destruct e; cbn [handler onUi ui].
  - left; reflexivity.
  - left. unfold handleConnectWallet. destruct (demoMode (ui w)); reflexivity.
  - left. unfold onClickDirection. destruct (isLocked (ui w)); reflexivity.
  - left. unfold onChangeConfidence. destruct (isLocked (ui w)); reflexivity.
  - left. rewrite handleLockIn_unfold.
    destruct (truthy_direction (userDirection (ui w))); reflexivity.
  - right; reflexivity.
  - left. rewrite handleRandomizeOutcome_flip. reflexivity.
  - left. rewrite handleCommitProof_unfold.
    destruct (truthy_string (commitmentHash (ui w))); reflexivity.
Qed.

Lemma react_countdown (a : Action) (w w' : World) :
  (0 <= timeRemaining (ui w) <= 30
   /\ (interval w = true -> 0 < timeRemaining (ui w))) ->
  react Math_random encodePacked keccak256 a w = Some w' ->
  0 <= timeRemaining (ui w') <= 30
  /\ (interval w' = true -> 0 < timeRemaining (ui w')).
Proof.
  intros [Hb Hi] H. unfold react in H.
  destruct (perform Math_random encodePacked keccak256 a w) as [w1|] eqn:Hp;
    [|discriminate].
  injection H as <-.
  split.
  - rewrite render_timeRemaining. apply perform_cases in Hp.
    destruct Hp as [[e ->]|[[ms ->]|[(i & t & _ & _ & ->)|[->|[->|[Hlive ->]]]]]].
    + destruct (dispatch_timeRemaining e w) as [-> | ->]; lia.
    + exact Hb.
    + destruct (callback t) as [|[|]]; exact Hb.
    + change (timerEffect (timerCleanup w)) with (render w).
      rewrite render_timeRemaining. exact Hb.
    + unfold commitmentEffect.
      destruct (isLocked (ui w) && showOutcome (ui w)); exact Hb.
    + unfold countdown. rewrite Hlive.
      change (timerEffect (timerCleanup (onUi tick (advance 1000 w))))
        with (render (onUi tick (advance 1000 w))).
      rewrite render_timeRemaining. cbn. specialize (Hi Hlive). lia.
  - rewrite render_interval. intros H.
    apply andb_prop in H as [_ H]. apply Z.ltb_lt in H. exact H.
Qed.

(** X11. On the page, where every step is followed by a render, the
    countdown stays between 0 and 30 and the interval is live exactly while
    the timer is active, the decision not locked and time left: there is no
    tick once the decision is locked or the time is up. *)
Theorem countdown_bounds (script : list Action) (w : World)
    (Hrun : session Math_random encodePacked keccak256 script mounted = Some w) :
  0 <= timeRemaining (ui w) <= 30
  /\ interval w =
     timerActive (ui w) && negb (isLocked (ui w)) && (0 <? timeRemaining (ui w))
  /\ perform Math_random encodePacked keccak256 Countdown w =
     (if timerActive (ui w) && negb (isLocked (ui w))
         && (0 <? timeRemaining (ui w))
      then Some (countdown w) else None).
Proof.
  assert (Hb : 0 <= timeRemaining (ui w) <= 30
               /\ (interval w = true -> 0 < timeRemaining (ui w))).
  { refine (session_invariant
              (fun w => 0 <= timeRemaining (ui w) <= 30
                        /\ (interval w = true -> 0 < timeRemaining (ui w)))
              react_countdown script mounted w _ Hrun).
    cbn. split; [lia|]. intros _. lia. }
  assert (Hi : interval w =
               timerActive (ui w) && negb (isLocked (ui w))
               && (0 <? timeRemaining (ui w))).
  { destruct script as [|a script] using rev_ind.
    - injection Hrun as <-. reflexivity.
    - clear IHscript.
      assert (Hlast : exists w1,
                 react Math_random encodePacked keccak256 a w1 = Some w).
      { revert Hrun. generalize mounted.
        induction script as [|b script IH]; intros w0 Hrun; cbn in Hrun.
        - destruct (react Math_random encodePacked keccak256 a w0) as [w1|] eqn:Ha;
            [|discriminate].
          injection Hrun as <-. exists w0. exact Ha.
        - destruct (react Math_random encodePacked keccak256 b w0) as [w1|];
            [|discriminate].
          exact (IH w1 Hrun). }
      destruct Hlast as [w1 Hlast]. unfold react in Hlast.
      destruct (perform Math_random encodePacked keccak256 a w1) as [w2|];
        [|discriminate].
      injection Hlast as <-. apply render_interval. }
  split; [exact (proj1 Hb)|]. split; [exact Hi|].
  cbn [perform]. rewrite Hi. reflexivity.
Qed.

End Sessions.

Lemma countdown_bounds_witness :
  session Demo.random Viem.encodePacked Viem.keccak256
    [Countdown; User (ClickDirection UP); User ClickLockIn] mounted
  = Some (render (dispatch ClickLockIn
            (render (dispatch (ClickDirection UP) (countdown mounted)))))
  /\ perform Demo.random Viem.encodePacked Viem.keccak256 Countdown
       (render (dispatch ClickLockIn
          (render (dispatch (ClickDirection UP) (countdown mounted)))))
     = None.
Proof.
  assert (Hrun :
    session Demo.random Viem.encodePacked Viem.keccak256
      [Countdown; User (ClickDirection UP); User ClickLockIn] mounted
    = Some (render (dispatch ClickLockIn
              (render (dispatch (ClickDirection UP) (countdown mounted))))))
    by (vm_compute; reflexivity).
  split; [exact Hrun|].
  pose proof (countdown_bounds Demo.random Viem.encodePacked Viem.keccak256
                _ _ Hrun) as (_ & _ & H).
  exact H.
Defined.

Lemma countdown_expires_witness :
  interval mounted = true
  /\ timerActive (ui mounted) = true
  /\ isLocked (ui mounted) = false
  /\ timeRemaining (ui mounted) = Z.of_nat 30
  /\ timeRemaining (ui (Nat.iter 30 countdown mounted)) = 0.
Proof.
  split; [reflexivity|]. split; [reflexivity|]. split; [reflexivity|].
  split; [reflexivity|].
  apply (countdown_expires 29 mounted eq_refl eq_refl eq_refl eq_refl).
Defined.

Lemma pending_is_awaited_witness :
  run Demo.random Viem.encodePacked Viem.keccak256
    Tour.submittedScript boot = Some Tour.submitted
  /\ txStatus (ui Tour.submitted) = pending
  /\ exists (i : nat) (t : Timeout),
       timeouts Tour.submitted !! i = Some t /\ isResume t = true.
Proof.
  assert (Hrun : run Demo.random Viem.encodePacked Viem.keccak256
                   Tour.submittedScript boot = Some Tour.submitted)
    by (vm_compute; reflexivity).
  split; [exact Hrun|]. split; [reflexivity|].
  exact (pending_is_awaited Demo.random Viem.encodePacked Viem.keccak256
           Tour.submittedScript Tour.submitted Hrun eq_refl).
Defined.
